(** * servertest: transcript and recipe-scraping endpoints (src/main.py)

    A shallow embedding of the request handlers of [main.py] and of the two
    helpers they rely on, the subtitle cleaner [_clean_vtt_text] and the
    JSON-LD search [_find_recipe_in_jsonld], followed by the properties the
    specification states about them.

    Conventions of the embedding.
    - A Python [str] is a [string] (a list of [ascii]); a character stands
      for the code point of the same number, so the strings covered are
      those over U+0000..U+00FF.  On that range the character classes used
      by [str.strip], [str.splitlines] and [\d] are exactly the ones
      written out below.
    - A Python value built by [json.loads], and every value put into a
      response dictionary, is a [pyval].
    - A response is the dictionary literal the handler returns, kept as
      the list of its (key, value) pairs in the order they are written.
    - A raised exception is an [exn]: its class, as far as an [except]
      clause of the program tells classes apart, and its message. *)

From Stdlib Require Import ZArith Ascii String List Bool Lia.
From Stdlib Require Import Floats.SpecFloat.
From stdpp Require Import base option list strings gmap.

Open Scope string_scope.
Open Scope list_scope.

(** ** Python strings *)

Module PyStr.

Abbreviation chars := (list ascii).

Definition code (c : ascii) : N := N_of_ascii c.

(** [str.isspace] for one character, on U+0000..U+00FF: the characters
    [str.strip()] removes. *)
Definition is_space (c : ascii) : bool :=
  let n := code c in
  ((9 <=? n) && (n <=? 13) || (28 <=? n) && (n <=? 32)
   || (n =? 133) || (n =? 160))%N.

(** The line boundaries of [str.splitlines()] on U+0000..U+00FF:
    \n, \v, \f, \r, \x1c, \x1d, \x1e and \x85. *)
Definition is_linebreak (c : ascii) : bool :=
  let n := code c in
  ((10 <=? n) && (n <=? 13) || (28 <=? n) && (n <=? 30) || (n =? 133))%N.

(** [\d] of the [re] module on U+0000..U+00FF: the ten ASCII digits. *)
Definition is_digit (c : ascii) : bool :=
  let n := code c in ((48 <=? n) && (n <=? 57))%N.

(** [str.upper()] and [str.lower()], character by character.  On
    U+0000..U+00FF, [lower] is exact.  [upper] is exact except at U+00B5,
    U+00DF and U+00FF, whose upper-case forms lie outside the range (or
    are two letters long, "SS"); none of them becomes a letter of
    "WEBVTT", the only string an upper-cased line is compared with, so
    they are left in place. *)
Definition upper_char (c : ascii) : ascii :=
  let n := code c in
  if ((97 <=? n) && (n <=? 122)
      || (224 <=? n) && (n <=? 254) && negb (n =? 247))%N
  then ascii_of_N (n - 32) else c.

Definition lower_char (c : ascii) : ascii :=
  let n := code c in
  if ((65 <=? n) && (n <=? 90)
      || (192 <=? n) && (n <=? 222) && negb (n =? 215))%N
  then ascii_of_N (n + 32) else c.

Definition upper (s : chars) : chars := map upper_char s.
Definition lower (s : chars) : chars := map lower_char s.

Definition chars_eqb (a b : chars) : bool :=
  bool_decide (a = b).

(** [s.startswith(p)] *)
Fixpoint startswith (p s : chars) : bool :=
  match p, s with
  | [], _ => true
  | a :: p', b :: s' => Ascii.eqb a b && startswith p' s'
  | _ :: _, [] => false
  end.

(** [p in s] for strings: [p] occurs in [s] as a substring. *)
Fixpoint contains (p s : chars) : bool :=
  startswith p s ||
  match s with
  | [] => false
  | _ :: r => contains p r
  end.

(** [s.lstrip()], [s.rstrip()], [s.strip()] *)
Fixpoint lstrip (s : chars) : chars :=
  match s with
  | [] => []
  | c :: r => if is_space c then lstrip r else s
  end.

Definition rstrip (s : chars) : chars := rev (lstrip (rev s)).

Definition strip (s : chars) : chars := rstrip (lstrip s).

(** [s.splitlines()]: the pieces between line boundaries, "\r\n" counting
    as one boundary; a boundary at the very end opens no further line. *)
Fixpoint splitlines (s : chars) : list chars :=
  match s with
  | [] => []
  | c :: r =>
      if is_linebreak c then
        [] :: match r with
              | c' :: r' =>
                  if Ascii.eqb c "013" && Ascii.eqb c' "010"
                  then splitlines r' else splitlines r
              | [] => []
              end
      else match splitlines r with
           | [] => [[c]]
           | l :: ls => (c :: l) :: ls
           end
  end.

(** [sep.join(parts)] *)
Fixpoint join (sep : chars) (parts : list chars) : chars :=
  match parts with
  | [] => []
  | [p] => p
  | p :: ps => p ++ sep ++ join sep ps
  end.

(** [s.replace("  ", " ")]: one left-to-right pass over the
    non-overlapping occurrences of two spaces. *)
Fixpoint replace_2sp (s : chars) : chars :=
  match s with
  | [] => []
  | c :: r =>
      match r with
      | c' :: r' =>
          if Ascii.eqb c " " && Ascii.eqb c' " "
          then " "%char :: replace_2sp r'
          else c :: replace_2sp r
      | [] => [c]
      end
  end.

(** [str.strip()] on a [string]. *)
Definition strip_string (s : string) : string :=
  string_of_list_ascii (strip (list_ascii_of_string s)).

End PyStr.

Import PyStr.

(** ** The VTT cleaner *)

(** A match of the pattern [<[^>]+>] can start at a "<" exactly when the
    next character exists and is not ">" and some ">" follows; greedy
    [[^>]+] then runs up to the first such ">". [tag_closes r] is that
    test on the text [r] after the "<". *)
Definition tag_closes (r : chars) : bool :=
  match r with
  | [] => false
  | c :: r' => negb (Ascii.eqb c ">") && existsb (Ascii.eqb ">") r'
  end.

(** [re.sub(r"<[^>]+>", " ", s)]: scanning left to right, each leftmost
    match is replaced by one space and the scan resumes after its closing
    ">". [in_tag] says the scan is inside a match. *)
Fixpoint sub_tags_from (in_tag : bool) (s : chars) : chars :=
  match s with
  | [] => []
  | c :: r =>
      if in_tag then
        sub_tags_from (negb (Ascii.eqb c ">")) r
      else if Ascii.eqb c "<" && tag_closes r then
        " "%char :: sub_tags_from true r
      else c :: sub_tags_from false r
  end.

Definition sub_tags (s : chars) : chars := sub_tags_from false s.

(** [re.match(r"^\d+$", s)] on a stripped line: one or more digits and
    nothing else. (A stripped line has no final "\n" for [$] to skip.) *)
Definition is_cue_index (s : chars) : bool :=
  match s with
  | [] => false
  | _ => forallb is_digit s
  end.

Definition is_empty (s : chars) : bool :=
  match s with [] => true | _ => false end.

(** The body of the [for line in vtt_text.splitlines()] loop; each
    [continue] leaves [lines] as it is. *)
Definition clean_step (lines : list chars) (line : chars) : list chars :=
  let stripped := strip line in
  if is_empty stripped then lines
  else if chars_eqb (upper stripped) (list_ascii_of_string "WEBVTT") then lines
  else if contains (list_ascii_of_string "-->") stripped then lines
  else if is_cue_index stripped then lines
  else if startswith (list_ascii_of_string "kind:") (lower stripped) then lines
  else if startswith (list_ascii_of_string "language:") (lower stripped) then lines
  else
    let stripped := sub_tags stripped in
    lines ++ [stripped].

Definition clean_chars (vtt_text : chars) : chars :=
  let lines := fold_left clean_step (splitlines vtt_text) [] in
  strip (replace_2sp (join [" "%char] lines)).

Definition _clean_vtt_text (vtt_text : string) : string :=
  string_of_list_ascii (clean_chars (list_ascii_of_string vtt_text)).

(** The lines the loop drops although they are not empty: the header
    token, a timing line, a cue index, a [kind:] or [language:] line. *)
Definition is_meta_line (stripped : chars) : bool :=
  chars_eqb (upper stripped) (list_ascii_of_string "WEBVTT")
  || contains (list_ascii_of_string "-->") stripped
  || is_cue_index stripped
  || startswith (list_ascii_of_string "kind:") (lower stripped)
  || startswith (list_ascii_of_string "language:") (lower stripped).

(** Some match of [<[^>]+>] starts in [s]. *)
Fixpoint has_tag (s : chars) : bool :=
  match s with
  | [] => false
  | c :: r => Ascii.eqb c "<" && tag_closes r || has_tag r
  end.

(** Two consecutive space characters occur in [s]. *)
Definition has_double_space (s : chars) : bool :=
  contains (list_ascii_of_string "  ") s.

(** A character that ends no line. *)
Definition no_break (c : ascii) : Prop := is_linebreak c = false.

Definition text_is_meta_line (s : string) : bool :=
  is_meta_line (list_ascii_of_string s).
Definition text_has_tag (s : string) : bool :=
  has_tag (list_ascii_of_string s).
Definition text_has_double_space (s : string) : bool :=
  has_double_space (list_ascii_of_string s).

Definition nl : string := String "010" EmptyString.

(** ** Python values *)

Unset Elimination Schemes.

Inductive pyval : Type :=
| PyNone
| PyBool (b : bool)
| PyInt (n : Z)
| PyFloat (f : spec_float)
| PyStr (s : string)
| PyList (items : list pyval)
| PyDict (entries : list (string * pyval)).

Set Elimination Schemes.

(** Structural induction on [pyval], through lists and dict entries. *)
Section PyvalInduction.
Variable P : pyval -> Prop.
Hypothesis P_none : P PyNone.
Hypothesis P_bool : forall b, P (PyBool b).
Hypothesis P_int : forall n, P (PyInt n).
Hypothesis P_float : forall f, P (PyFloat f).
Hypothesis P_str : forall s, P (PyStr s).
Hypothesis P_list : forall items, Forall P items -> P (PyList items).
Hypothesis P_dict :
  forall entries, Forall (fun kv => P (snd kv)) entries -> P (PyDict entries).

Fixpoint pyval_ind (v : pyval) : P v :=
  match v with
  | PyNone => P_none
  | PyBool b => P_bool b
  | PyInt n => P_int n
  | PyFloat f => P_float f
  | PyStr s => P_str s
  | PyList items =>
      P_list items
        ((fix all (l : list pyval) : Forall P l :=
            match l with
            | [] => List.Forall_nil P
            | x :: r => List.Forall_cons P x r (pyval_ind x) (all r)
            end) items)
  | PyDict entries =>
      P_dict entries
        ((fix all (l : list (string * pyval))
            : Forall (fun kv => P (snd kv)) l :=
            match l with
            | [] => List.Forall_nil _
            | kv :: r => List.Forall_cons _ kv r (pyval_ind (snd kv)) (all r)
            end) entries)
  end.
End PyvalInduction.

Abbreviation pydict := (list (string * pyval)).

(** Truth value of a Python object, as [if x:], [not x] and [x or y]
    take it. *)
Definition truthy (v : pyval) : bool :=
  match v with
  | PyNone => false
  | PyBool b => b
  | PyInt n => negb (n =? 0)%Z
  | PyFloat (S754_zero _) => false
  | PyFloat _ => true
  | PyStr s => negb (String.eqb s "")
  | PyList items => negb (bool_decide (items = []))
  | PyDict entries => negb (bool_decide (entries = []))
  end.

(** [x or y] *)
Definition py_or (x y : pyval) : pyval := if truthy x then x else y.

(** [type(v).__name__] *)
Definition type_name (v : pyval) : string :=
  match v with
  | PyNone => "NoneType"
  | PyBool _ => "bool"
  | PyInt _ => "int"
  | PyFloat _ => "float"
  | PyStr _ => "str"
  | PyList _ => "list"
  | PyDict _ => "dict"
  end.

(** [key in d] and [d.get(key, default)] on the entries of a dict. *)
Fixpoint dict_lookup (key : string) (entries : pydict) : option pyval :=
  match entries with
  | [] => None
  | (k, v) :: rest => if String.eqb k key then Some v else dict_lookup key rest
  end.

Definition dict_get (key : string) (dflt : pyval) (entries : pydict) : pyval :=
  match dict_lookup key entries with
  | Some v => v
  | None => dflt
  end.

(** [needle in items] for a string [needle] and a list [items]: some
    element compares equal to the string, which only a [str] does. *)
Definition str_in_list (needle : string) (items : list pyval) : bool :=
  existsb (fun v => match v with
                    | PyStr s => String.eqb needle s
                    | _ => false
                    end) items.

Definition opt_truthy (r : option pyval) : bool :=
  match r with
  | Some v => truthy v
  | None => false
  end.

(** ** The JSON-LD recipe finder *)

(** [_find_recipe_in_jsonld]; [None] is Python's [None].  The inner
    [graph] walks the entries to the "@graph" key (the test
    ["@graph" in data] and the read [data["@graph"]]); the inner [each]
    is the [for item in data] loop. *)
Fixpoint _find_recipe_in_jsonld (data : pyval) : option pyval :=
  match data with
  | PyDict entries =>
      let schema_type := dict_get "@type" (PyStr "") entries in
      let types := match schema_type with
                   | PyList l => l
                   | _ => [schema_type]
                   end in
      if str_in_list "Recipe" types then Some data
      else
        (fix graph (es : pydict) : option pyval :=
           match es with
           | [] => None
           | (k, v) :: rest =>
               if String.eqb k "@graph" then
                 let result := _find_recipe_in_jsonld v in
                 if opt_truthy result then result else None
               else graph rest
           end) entries
  | PyList items =>
      (fix each (its : list pyval) : option pyval :=
         match its with
         | [] => None
         | item :: rest =>
             let result := _find_recipe_in_jsonld item in
             if opt_truthy result then result else each rest
         end) items
  | _ => None
  end.

(** The search as the specification words it: the nodes visited in
    depth-first pre-order, a mapping before the content of its "@graph"
    field, the elements of a sequence in order; and the test a node
    passes. *)
Fixpoint preorder_nodes (data : pyval) : list pyval :=
  match data with
  | PyDict entries =>
      data ::
      (fix graph (es : pydict) : list pyval :=
         match es with
         | [] => []
         | (k, v) :: rest =>
             if String.eqb k "@graph" then preorder_nodes v else graph rest
         end) entries
  | PyList items =>
      (fix each (its : list pyval) : list pyval :=
         match its with
         | [] => []
         | item :: rest => preorder_nodes item ++ each rest
         end) items
  | _ => []
  end.

Definition normalized_types (node : pyval) : list pyval :=
  match node with
  | PyDict entries =>
      match dict_lookup "@type" entries with
      | Some (PyList l) => l
      | Some v => [v]
      | None => []
      end
  | _ => []
  end.

Definition is_recipe_node (node : pyval) : bool :=
  str_in_list "Recipe" (normalized_types node).

Definition first_recipe_node (data : pyval) : option pyval :=
  List.find is_recipe_node (preorder_nodes data).

(** ** Exceptions, the outside world and the handler monad *)

(** Exception classes, as far as the program's [except] clauses and
    messages need them.  [requests.exceptions.Timeout] derives from
    [RequestException]; every class derives from [Exception]. *)
Inductive exn_class : Type :=
| Timeout
| RequestException
| JSONDecodeError
| TypeError
| AttributeError
| RuntimeError
| OtherException.

(** An exception: its class and [str(exc)]. *)
Record exn : Type := Exn { exn_cls : exn_class; exn_msg : string }.

Definition is_timeout (e : exn) : bool :=
  match exn_cls e with Timeout => true | _ => false end.

Definition is_request_exception (e : exn) : bool :=
  match exn_cls e with Timeout | RequestException => true | _ => false end.

Definition is_json_or_type_error (e : exn) : bool :=
  match exn_cls e with JSONDecodeError | TypeError => true | _ => false end.

(** What [requests.get] hands back: the exception [raise_for_status()]
    raises, if the status calls for one, and [response.text]. *)
Record response : Type :=
  Response { status_error : option exn; response_text : string }.

(** One caption track descriptor: [entry.get("ext")], [entry.get("url")]. *)
Record track : Type :=
  Track { track_ext : option string; track_url : option string }.

(** The metadata dict of the extractor, through the keys the program
    reads; [other_keys] tells whether it holds any further key (a dict
    without any key is falsy). *)
Record info : Type := Info {
  info_description : option string;
  info_title : option string;
  subtitles : option (gmap string (list track));
  automatic_captions : option (gmap string (list track));
  other_keys : bool
}.

(** One item of the transcript provider, through [item.get("text")]. *)
Record item : Type := Item { item_text : option string }.

(** What the parsed page shows the scraper. *)
Record soup : Type := Soup {
  (** [soup.title.string] when [soup.title] and it exist *)
  title_string : option string;
  (** [soup.find("meta", property="og:image")]: the tag when found, as
      the value of its [content] attribute when it has one *)
  og_tag : option (option string);
  (** for each [script type="application/ld+json"], in document order,
      what [json.loads(script.string)] gives or raises *)
  ld_json : list (exn + pyval);
  (** [soup.get_text(separator="\n", strip=True)] once the script, style,
      nav, footer and header elements are removed *)
  page_text : string
}.

(** The options [_fetch_video_info] passes to the extractor, as far as
    they vary. *)
Record ydl_opts : Type :=
  YdlOpts { cookiefile : option string; cookiesfrombrowser : option string }.

(** Calls that leave the process. *)
Inductive event : Type :=
| ExtractInfo (opts : ydl_opts) (video_url : string)
| GetTranscript (video_id : string) (languages : list string)
                (cookies : option string)
| HttpGet (target : string) (timeout : nat).

(** The collaborators.  An answer may depend on the calls made before. *)
Record world : Type := World {
  getenv : string -> option string;
  extract_info : list event -> ydl_opts -> string -> exn + option info;
  get_transcript :
    list event -> string -> list string -> option string -> exn + list item;
  requests_get : list event -> string -> exn + response;
  BeautifulSoup : string -> soup
}.

(** A computation that may raise and that records its outside calls:
    from the calls made so far to an outcome and the calls made then. *)
Definition M (A : Type) : Type := list event -> (exn + A) * list event.

Definition ret {A} (a : A) : M A := fun tr => (inr a, tr).

Definition raise {A} (e : exn) : M A := fun tr => (inl e, tr).

Definition bind {A B} (m : M A) (k : A -> M B) : M B :=
  fun tr =>
    match m tr with
    | (inr a, tr') => k a tr'
    | (inl e, tr') => (inl e, tr')
    end.

(** [try: m  except Exception as e: h e] *)
Definition try_except {A} (m : M A) (h : exn -> M A) : M A :=
  fun tr =>
    match m tr with
    | (inr a, tr') => (inr a, tr')
    | (inl e, tr') => h e tr'
    end.

(** An outside call: answered from the calls so far, then recorded. *)
Definition call {A} (ev : event) (answer : list event -> exn + A) : M A :=
  fun tr => (answer tr, tr ++ [ev]).

#[global] Instance M_bind : MBind M := fun A B k m => bind m k.

(** [s if s else None] on an optional string, and its truth value. *)
Definition opt_str_truthy (o : option string) : bool :=
  match o with
  | Some s => negb (String.eqb s "")
  | None => false
  end.

Definition opt_str_val (o : option string) : pyval :=
  match o with
  | Some s => PyStr s
  | None => PyNone
  end.

(** ** The transcript endpoint *)

(** The [ydl_opts] dict: ["cookiefile": cookies_path or None], and
    ["cookiesfrombrowser"] set when a browser is named and no path is. *)
Definition make_ydl_opts (cookies_path cookies_browser : option string)
    : ydl_opts :=
  {| cookiefile := if opt_str_truthy cookies_path then cookies_path else None;
     cookiesfrombrowser :=
       if opt_str_truthy cookies_browser && negb (opt_str_truthy cookies_path)
       then cookies_browser else None |}.

Definition watch_url (video_id : string) : string :=
  "https://www.youtube.com/watch?v=" +:+ video_id.

Definition _fetch_video_info (w : world) (video_id : string)
    (cookies_path cookies_browser : option string) : M (option info) :=
  let ydl_opts := make_ydl_opts cookies_path cookies_browser in
  let target := watch_url video_id in
  call (ExtractInfo ydl_opts target)
       (fun tr => extract_info w tr ydl_opts target).

Definition track_has_url (entry : track) : bool := opt_str_truthy (track_url entry).

Definition track_is_vtt (entry : track) : bool :=
  match track_ext entry with
  | Some e => String.eqb e "vtt"
  | None => false
  end.

(** The two [for entry in entries] loops of [pick_caption_url]. *)
Fixpoint first_vtt_url (entries : list track) : option string :=
  match entries with
  | [] => None
  | entry :: rest =>
      if track_is_vtt entry && track_has_url entry then track_url entry
      else first_vtt_url rest
  end.

Fixpoint first_any_url (entries : list track) : option string :=
  match entries with
  | [] => None
  | entry :: rest =>
      if track_has_url entry then track_url entry else first_any_url rest
  end.

Definition pick_caption_url (lang : string)
    (store : gmap string (list track)) : option string :=
  let entries := default [] (store !! lang) in
  match first_vtt_url entries with
  | Some u => Some u
  | None => first_any_url entries
  end.

Definition no_info_attribute : exn :=
  Exn AttributeError "'NoneType' object has no attribute 'get'".

Definition no_captions : exn :=
  Exn RuntimeError "No captions found for requested language".

(** The URL [_fetch_via_ytdlp] settles on:
    [pick_caption_url(captions) or pick_caption_url(auto_captions)]. *)
Definition caption_url_of (lang : string) (i : info) : option string :=
  let captions := default ∅ (subtitles i) in
  let auto_captions := default ∅ (automatic_captions i) in
  let manual := pick_caption_url lang captions in
  if opt_str_truthy manual then manual
  else pick_caption_url lang auto_captions.

Definition _fetch_via_ytdlp (w : world) (video_id lang : string)
    (cookies_path cookies_browser : option string)
    (video_info : option info) : M (string * info) :=
  fetched ←
    match video_info with
    | None => _fetch_video_info w video_id cookies_path cookies_browser
    | Some i => ret (Some i)
    end;
  match fetched with
  | None => raise no_info_attribute
  | Some i =>
      let caption_url := caption_url_of lang i in
      if negb (opt_str_truthy caption_url) then raise no_captions
      else
        let target := default "" caption_url in
        resp ← call (HttpGet target 30) (fun tr => requests_get w tr target);
        match status_error resp with
        | Some e => raise e
        | None => ret (_clean_vtt_text (response_text resp), i)
        end
  end.

Definition info_truthy (i : info) : bool :=
  other_keys i
  || bool_decide (is_Some (info_description i))
  || bool_decide (is_Some (info_title i))
  || bool_decide (is_Some (subtitles i))
  || bool_decide (is_Some (automatic_captions i)).

(** [" ".join([item.get("text", "") for item in transcript_items]).strip()] *)
Definition joined_text (transcript_items : list item) : string :=
  string_of_list_ascii
    (join [" "%char]
       (map (fun it => list_ascii_of_string (default "" (item_text it)))
            transcript_items)).

Definition primary_text (transcript_items : list item) : string :=
  strip_string (joined_text transcript_items).

Definition empty_primary : exn :=
  Exn RuntimeError "Empty transcript from primary API".

Definition transcript_ok (videoId text : string)
    (description title : option string) : pydict :=
  [ ("success", PyBool true);
    ("videoId", PyStr videoId);
    ("transcript", PyStr text);
    ("description", opt_str_val description);
    ("title", opt_str_val title) ].

Definition transcript_failed (videoId : string) (exc fallback_exc : exn)
    (description title : option string) : pydict :=
  [ ("success", PyBool false);
    ("videoId", PyStr videoId);
    ("error", PyStr (exn_msg exc +:+ " | fallback: " +:+ exn_msg fallback_exc));
    ("transcript", PyNone);
    ("description", opt_str_val description);
    ("title", opt_str_val title) ].

Definition transcript (w : world) (videoId lang : string) : M pydict :=
  let cookies_path := getenv w "TRANSCRIPT_COOKIES_PATH" in
  let cookies_browser := getenv w "TRANSCRIPT_COOKIES_BROWSER" in
  '(video_info, description, title) ←
    try_except
      (fetched ← _fetch_video_info w videoId cookies_path cookies_browser;
       match fetched with
       | Some i => ret (Some i, info_description i, info_title i)
       | None => raise no_info_attribute
       end)
      (fun _ => ret (None, None, None));
  try_except
    (transcript_items ←
       call (GetTranscript videoId [lang] cookies_path)
            (fun tr => get_transcript w tr videoId [lang] cookies_path);
     let text := primary_text transcript_items in
     if String.eqb text "" then raise empty_primary
     else ret (transcript_ok videoId text description title))
    (fun exc =>
       try_except
         ('(text, i) ←
            _fetch_via_ytdlp w videoId lang cookies_path cookies_browser
                             video_info;
          let '(description, title) :=
            if info_truthy i && negb (opt_str_truthy description)
            then (info_description i, info_title i)
            else (description, title) in
          ret (transcript_ok videoId text description title))
         (fun fallback_exc =>
            ret (transcript_failed videoId exc fallback_exc
                                   description title))).

(** The two calls every request makes first, and the metadata step 1
    keeps: the description and title of the info dict when the extractor
    returned one, nothing when it raised or returned [None]. *)
Definition metadata_call (w : world) (videoId : string) : event :=
  ExtractInfo (make_ydl_opts (getenv w "TRANSCRIPT_COOKIES_PATH")
                             (getenv w "TRANSCRIPT_COOKIES_BROWSER"))
              (watch_url videoId).

Definition primary_call (w : world) (videoId lang : string) : event :=
  GetTranscript videoId [lang] (getenv w "TRANSCRIPT_COOKIES_PATH").

Definition captured_info (w : world) (videoId : string) : option info :=
  match extract_info w []
          (make_ydl_opts (getenv w "TRANSCRIPT_COOKIES_PATH")
                         (getenv w "TRANSCRIPT_COOKIES_BROWSER"))
          (watch_url videoId) with
  | inr (Some i) => Some i
  | _ => None
  end.

Definition captured_description (w : world) (videoId : string)
    : option string :=
  match captured_info w videoId with
  | Some i => info_description i
  | None => None
  end.

Definition captured_title (w : world) (videoId : string) : option string :=
  match captured_info w videoId with
  | Some i => info_title i
  | None => None
  end.

(** The choice of a caption track as the specification words it: in one
    store, a track of the language with the subtitle format and a URL,
    else the first track of the language with a URL; the manual store
    before the automatic one. *)
Definition tracks_for (lang : string)
    (store : option (gmap string (list track))) : list track :=
  match store with
  | Some m => default [] (m !! lang)
  | None => []
  end.

Definition preferred_track (entries : list track) : option track :=
  match List.find (fun e => track_is_vtt e && track_has_url e) entries with
  | Some e => Some e
  | None => List.find track_has_url entries
  end.

Definition chosen_caption_url (lang : string) (i : info) : option string :=
  match preferred_track (tracks_for lang (subtitles i)) with
  | Some e => track_url e
  | None =>
      match preferred_track (tracks_for lang (automatic_captions i)) with
      | Some e => track_url e
      | None => None
      end
  end.

(** ** The recipe-scraping endpoint *)

(** [v.get(key, dflt)]: only a dict has the method. *)
Definition py_get (v : pyval) (key : string) (dflt : pyval) : M pyval :=
  match v with
  | PyDict entries => ret (dict_get key dflt entries)
  | _ => raise (Exn AttributeError
                    ("'" +:+ type_name v +:+ "' object has no attribute 'get'"))
  end.

(** The loop over the JSON-LD script blocks.  [recipe_data] is the
    variable of that name: assigned at every block that parses, the loop
    left at the first truthy result. *)
Fixpoint scan_ld_json (blocks : list (exn + pyval))
    (recipe_data : option pyval) : M (option pyval) :=
  match blocks with
  | [] => ret recipe_data
  | inr data :: rest =>
      let recipe_data := _find_recipe_in_jsonld data in
      if opt_truthy recipe_data then ret recipe_data
      else scan_ld_json rest recipe_data
  | inl e :: rest =>
      if is_json_or_type_error e then scan_ld_json rest recipe_data
      else raise e
  end.

Definition body_limit : nat := Z.to_nat 8000.

(** [body_text[:8000]] when [len(body_text) > 8000] *)
Definition truncate_body (body_text : string) : string :=
  if (body_limit <? String.length body_text)%nat
  then substring 0 body_limit body_text
  else body_text.

(** The image taken from the recipe node when no og:image was kept. *)
Definition image_from_recipe (og_image recipe_data : pyval) : M pyval :=
  if negb (truthy og_image) then
    img ← py_get recipe_data "image" PyNone;
    if truthy img then
      match img with
      | PyStr _ => ret img
      | PyList (first :: _) =>
          match first with
          | PyStr _ => ret first
          | _ => py_get first "url" (PyStr "")
          end
      | PyDict _ => py_get img "url" (PyStr "")
      | _ => ret og_image
      end
    else ret og_image
  else ret og_image.

(** [soup.title.string.strip() if soup.title and soup.title.string
    else None] *)
Definition page_title_of (page : soup) : pyval :=
  if opt_str_truthy (title_string page)
  then PyStr (strip_string (default "" (title_string page)))
  else PyNone.

(** [og_image] after the og:image lookup: the content of the tag when the
    tag is found and its content is truthy, else [None]. *)
Definition og_image_of (page : soup) : pyval :=
  match og_tag page with
  | Some content =>
      if opt_str_truthy content then opt_str_val content else PyNone
  | None => PyNone
  end.

(** The body of the [try] block of [scrape_recipe]. *)
Definition scrape_recipe_try (w : world) (url : string) : M pydict :=
  resp ← call (HttpGet url 15) (fun tr => requests_get w tr url);
  match status_error resp with
  | Some e => raise e
  | None =>
      let soup := BeautifulSoup w (response_text resp) in
      let page_title := page_title_of soup in
      let og_image := og_image_of soup in
      recipe_data ← scan_ld_json (ld_json soup) None;
      let body_text := truncate_body (page_text soup) in
      match recipe_data with
      | Some recipe_data =>
          if truthy recipe_data then
            og_image ← image_from_recipe og_image recipe_data;
            has_instructions ← py_get recipe_data "recipeInstructions" PyNone;
            name ← py_get recipe_data "name" PyNone;
            ret [ ("success", PyBool true);
                  ("recipe_data", recipe_data);
                  ("page_text",
                    if negb (truthy has_instructions)
                    then PyStr body_text else PyNone);
                  ("title", py_or name page_title);
                  ("image_url", og_image) ]
          else
            ret [ ("success", PyBool true);
                  ("recipe_data", PyNone);
                  ("page_text", PyStr body_text);
                  ("title", page_title);
                  ("image_url", og_image) ]
      | None =>
          ret [ ("success", PyBool true);
                ("recipe_data", PyNone);
                ("page_text", PyStr body_text);
                ("title", page_title);
                ("image_url", og_image) ]
      end
  end.

Definition scrape_failed (message : string) : pydict :=
  [ ("success", PyBool false); ("error", PyStr message) ].

(** The three [except] clauses, tried in the order they are written. *)
Definition scrape_except (exc : exn) : pydict :=
  if is_timeout exc then scrape_failed "Request timed out"
  else if is_request_exception exc
  then scrape_failed ("Failed to fetch page: " +:+ exn_msg exc)
  else scrape_failed ("Scraping failed: " +:+ exn_msg exc).

Definition scrape_recipe (w : world) (url : string) : M pydict :=
  try_except (scrape_recipe_try w url) (fun exc => ret (scrape_except exc)).

(** Running a handler for one request: no call made yet. *)
Definition run {A} (m : M A) : (exn + A) * list event := m [].

Definition keys (d : pydict) : list string := map fst d.

(** The exception that ends the page fetch, if any: the one
    [requests.get] raises, else the one [raise_for_status()] raises. *)
Definition fetch_error (w : world) (url : string) : option exn :=
  match requests_get w [] url with
  | inl e => Some e
  | inr resp => status_error resp
  end.

(** The recipe node the scan over the JSON-LD blocks of a fetched page
    ends with, if it ends with one. *)
Definition found_recipe (w : world) (url : string) (resp : response)
    : option pyval :=
  match fst (scan_ld_json (ld_json (BeautifulSoup w (response_text resp)))
                          None [HttpGet url 15]) with
  | inr (Some node) => Some node
  | _ => None
  end.

(** The image URL the recipe's [image] field stands for, as the
    specification words it: the field itself when a string; the first
    element of a sequence when a string, its [url] field when an object;
    the [url] field of a single object; nothing otherwise. *)
Definition image_of_field (img : pyval) : pyval :=
  if truthy img then
    match img with
    | PyStr _ => img
    | PyList (PyStr s :: _) => PyStr s
    | PyList (PyDict first :: _) => dict_get "url" (PyStr "") first
    | PyDict fields => dict_get "url" (PyStr "") fields
    | _ => PyNone
    end
  else PyNone.

(** ** Sample collaborators *)

(** A world whose collaborators give the same answer at every call. *)
Definition constant_world (meta : exn + option info)
    (primary : exn + list item) (fetched : exn + response) (page : soup)
    : world :=
  {| getenv := fun _ => None;
     extract_info := fun _ _ _ => meta;
     get_transcript := fun _ _ _ _ => primary;
     requests_get := fun _ _ => fetched;
     BeautifulSoup := fun _ => page |}.

Definition sample_info : info :=
  {| info_description := Some "How to make soup";
     info_title := Some "Soup";
     subtitles :=
       Some {[ "en" := [ Track (Some "json3") (Some "https://c.example/en.json3");
                         Track (Some "vtt") (Some "https://c.example/en.vtt") ] ]};
     automatic_captions :=
       Some {[ "en" := [ Track (Some "vtt") (Some "https://c.example/auto.vtt") ] ]};
     other_keys := true |}.

Definition sample_captions : response :=
  {| status_error := None;
     response_text := "WEBVTT" +:+ nl +:+ nl +:+ "00:01.000 --> 00:02.000"
                      +:+ nl +:+ "hello" +:+ nl |}.

Definition sample_vtt : string :=
  "WEBVTT" +:+ nl +:+ nl +:+ "1" +:+ nl
  +:+ "00:00:01.000 --> 00:00:02.000" +:+ nl
  +:+ "<b>Hello</b> world" +:+ nl.

Definition empty_soup : soup :=
  {| title_string := None; og_tag := None; ld_json := []; page_text := "" |}.

Definition ok_response : response :=
  {| status_error := None; response_text := "<html>...</html>" |}.

Definition sample_body : string := "Soup" +:+ nl +:+ "Boil the water.".

(** A page with one JSON-LD block holding a recipe node of the given
    further fields, an unparsable block before it. *)
Definition recipe_page (og : option (option string))
    (fields : pydict) : soup :=
  {| title_string := Some " Soup - Example ";
     og_tag := og;
     ld_json := [ inl (Exn JSONDecodeError "Expecting value");
                  inr (PyDict [("@graph",
                                PyList [PyDict (("@type", PyStr "Recipe")
                                                :: fields)])]) ];
     page_text := sample_body |}.

Definition page_world (fetched : exn + response) (page : soup) : world :=
  constant_world (inl (Exn OtherException "unused"))
                 (inl (Exn OtherException "unused")) fetched page.

(** A recipe without instructions, one with instructions, one whose
    instructions are an empty list. *)
Definition partial_recipe_world : world :=
  page_world (inr ok_response)
    (recipe_page None [("name", PyStr "Soup")]).

Definition full_recipe_world : world :=
  page_world (inr ok_response)
    (recipe_page (Some (Some "https://img/x.jpg"))
       [ ("name", PyStr "Soup"); ("image", PyStr "https://img/y.jpg");
         ("recipeInstructions", PyList [PyStr "Boil"]) ]).

Definition empty_instructions_world : world :=
  page_world (inr ok_response)
    (recipe_page None
       [("name", PyStr "Soup"); ("recipeInstructions", PyList [])]).

(** An og:image tag whose content is empty, beside a recipe image. *)
Definition blank_og_world : world :=
  page_world (inr ok_response)
    (recipe_page (Some (Some ""))
       [ ("name", PyStr "Soup"); ("image", PyStr "https://img/y.jpg");
         ("recipeInstructions", PyList [PyStr "Boil"]) ]).

(** No og:image; the recipe image is a list of objects. *)
Definition image_list_world : world :=
  page_world (inr ok_response)
    (recipe_page None
       [ ("image", PyList [PyDict [("@type", PyStr "ImageObject");
                                   ("url", PyStr "https://img/z.jpg")]]) ]).

(** No og:image; the recipe image is a list of numbers. *)
Definition bad_image_world : world :=
  page_world (inr ok_response)
    (recipe_page None
       [("name", PyStr "Soup"); ("image", PyList [PyInt 1])]).

Definition timeout_world : world :=
  page_world (inl (Exn Timeout "Read timed out. (read timeout=15)"))
             empty_soup.

Definition not_found_world : world :=
  page_world
    (inr {| status_error :=
              Some (Exn RequestException "404 Client Error: Not Found");
            response_text := "" |})
    empty_soup.

(** Worlds for the transcript endpoint: the primary provider answers; it
    answers with one blank item; everything is down. *)
Definition primary_world : world :=
  constant_world (inr (Some sample_info))
                 (inr [Item (Some " Boil the water"); Item None;
                       Item (Some "Add salt ")])
                 (inr sample_captions) empty_soup.

Definition blank_primary_world : world :=
  constant_world (inr (Some sample_info)) (inr [Item (Some " ")])
                 (inr sample_captions) empty_soup.

Definition down_world : world :=
  constant_world (inl (Exn OtherException "Sign in to confirm"))
                 (inl (Exn OtherException "Transcripts are disabled"))
                 (inr sample_captions) empty_soup.

(** ** Notions used by the further properties *)

(** The list [lines] when the loop of [_clean_vtt_text] ends. *)
Definition surviving_lines (vtt_text : chars) : list chars :=
  fold_left clean_step (splitlines vtt_text) [].

(** A line the loop skips: empty once stripped, or a header, timing,
    index or metadata line. *)
Definition dropped_line (line : chars) : bool :=
  is_empty (strip line) || is_meta_line (strip line).

Definition all_lines_dropped (vtt_text : string) : bool :=
  forallb dropped_line (splitlines (list_ascii_of_string vtt_text)).

Definition text_one_line (s : string) : bool :=
  forallb (fun c => negb (is_linebreak c)) (list_ascii_of_string s).

(** Three consecutive space characters occur in [s]. *)
Definition has_triple_space (s : chars) : bool :=
  contains (list_ascii_of_string "   ") s.

(** The text [" ".join(lines)] of [_clean_vtt_text], before the
    [replace] and the final [strip]. *)
Definition joined_lines (vtt_text : string) : chars :=
  join [" "%char] (surviving_lines (list_ascii_of_string vtt_text)).

(** The exception with which the primary attempt of [transcript] ends,
    if it fails: the one the provider raises, or the [RuntimeError] for a
    text that is empty once trimmed. *)
Definition primary_exception (w : world) (videoId lang : string)
    : option exn :=
  match get_transcript w [metadata_call w videoId] videoId [lang]
                       (getenv w "TRANSCRIPT_COOKIES_PATH") with
  | inl e => Some e
  | inr transcript_items =>
      if String.eqb (primary_text transcript_items) "" then Some empty_primary
      else None
  end.


(** A world with both cookie settings in the environment, whose
    extractor fails at the first call and answers afterwards, and whose
    primary provider fails. *)
Definition cookie_world : world :=
  {| getenv := fun name =>
       if String.eqb name "TRANSCRIPT_COOKIES_PATH" then Some "/srv/cookies.txt"
       else if String.eqb name "TRANSCRIPT_COOKIES_BROWSER" then Some "firefox"
       else None;
     extract_info := fun tr _ _ =>
       match tr with
       | [] => inl (Exn OtherException "HTTP Error 429")
       | _ => inr (Some sample_info)
       end;
     get_transcript := fun _ _ _ _ =>
       inl (Exn OtherException "Transcripts are disabled");
     requests_get := fun _ _ => inr sample_captions;
     BeautifulSoup := fun _ => empty_soup |}.

(** The primary provider fails and the metadata is there. *)
Definition fallback_world (fetched : exn + response) : world :=
  constant_world (inr (Some sample_info))
                 (inl (Exn OtherException "Transcripts are disabled"))
                 fetched empty_soup.


(** Metadata whose manual store has a track in another format and
    whose automatic store has a vtt track. *)
Definition srv3_info : info :=
  {| info_description := None;
     info_title := None;
     subtitles :=
       Some {[ "en" := [Track (Some "srv3") (Some "https://c.example/m.srv3")] ]};
     automatic_captions :=
       Some {[ "en" := [Track (Some "vtt") (Some "https://c.example/a.vtt")] ]};
     other_keys := false |}.

(** A JSON-LD block the scan passes over: one that does not parse, or
    one in which the finder finds nothing. *)
Definition skippable_block (block : exn + pyval) : bool :=
  match block with
  | inl e => is_json_or_type_error e
  | inr data =>
      match _find_recipe_in_jsonld data with
      | Some _ => false
      | None => true
      end
  end.

(** A page whose JSON-LD blocks hold no recipe. *)
Definition plain_page : soup :=
  {| title_string := Some " Soup - Example ";
     og_tag := Some (Some "https://img/x.jpg");
     ld_json := [ inl (Exn TypeError "the JSON object must be str, not NoneType");
                  inr (PyDict [("@type", PyStr "WebSite")]) ];
     page_text := sample_body |}.

(** A page whose second block holds a recipe and whose third block makes
    the parser raise something else than a JSON or type error. *)
Definition deep_page (second : exn + pyval) : soup :=
  {| title_string := None;
     og_tag := None;
     ld_json := [ inr (PyList [PyDict [("@type", PyStr "WebSite")]]);
                  second;
                  inl (Exn OtherException "maximum recursion depth exceeded") ];
     page_text := sample_body |}.

(** [isinstance(v, str)] or [isinstance(v, dict)] *)
Definition is_str_or_dict (v : pyval) : bool :=
  match v with
  | PyStr _ | PyDict _ => true
  | _ => false
  end.

(** A character other than ">". *)
Definition no_gt (c : ascii) : Prop := Ascii.eqb ">" c = false.

Definition header_only_vtt : string :=
  "WEBVTT" +:+ nl +:+ "Kind: captions" +:+ nl +:+ "Language: en" +:+ nl
  +:+ nl +:+ "12" +:+ nl +:+ "00:00:01.000 --> 00:00:02.000" +:+ nl.

(** * Properties *)

(** ** The JSON-LD recipe finder *)

Section Finder.

(** The test of the code, on the value of [data.get("@type", "")], is the
    test on the normalized type sequence. *)
Lemma recipe_test_normalized entries :
  str_in_list "Recipe"
    (match dict_get "@type" (PyStr "") entries with
     | PyList l => l
     | _ => [dict_get "@type" (PyStr "") entries]
     end)
  = is_recipe_node (PyDict entries).
Proof.
  unfold is_recipe_node, normalized_types, dict_get.
  destruct (dict_lookup "@type" entries) as [v|]; [|reflexivity].
  destruct v; reflexivity.
Qed.

Lemma recipe_node_truthy v : is_recipe_node v = true -> truthy v = true.
Proof.
  destruct v as [| | | | |items|entries]; try discriminate.
  destruct entries; [discriminate|reflexivity].
Qed.

(** The walk to the "@graph" key is the lookup of that key. *)
Lemma find_dict entries :
  _find_recipe_in_jsonld (PyDict entries) =
  if is_recipe_node (PyDict entries) then Some (PyDict entries)
  else match dict_lookup "@graph" entries with
       | Some g =>
           if opt_truthy (_find_recipe_in_jsonld g)
           then _find_recipe_in_jsonld g else None
       | None => None
       end.
Proof.
  cbn [_find_recipe_in_jsonld]. rewrite recipe_test_normalized.
  destruct (is_recipe_node (PyDict entries)); [reflexivity|].
  induction entries as [|[k v] rest IH]; [reflexivity|].
  cbn [dict_lookup]. destruct (String.eqb k "@graph"); [reflexivity|apply IH].
Qed.

Lemma find_list_cons item rest :
  _find_recipe_in_jsonld (PyList (item :: rest)) =
  if opt_truthy (_find_recipe_in_jsonld item)
  then _find_recipe_in_jsonld item
  else _find_recipe_in_jsonld (PyList rest).
Proof. reflexivity. Qed.

Lemma preorder_dict entries :
  preorder_nodes (PyDict entries) =
  PyDict entries ::
  match dict_lookup "@graph" entries with
  | Some g => preorder_nodes g
  | None => []
  end.
Proof.
  cbn [preorder_nodes]. f_equal.
  induction entries as [|[k v] rest IH]; [reflexivity|].
  cbn [dict_lookup]. destruct (String.eqb k "@graph"); [reflexivity|apply IH].
Qed.

Lemma preorder_list_cons item rest :
  preorder_nodes (PyList (item :: rest)) =
  preorder_nodes item ++ preorder_nodes (PyList rest).
Proof. reflexivity. Qed.

Lemma find_app {A} (f : A -> bool) (l1 l2 : list A) :
  List.find f (l1 ++ l2) =
  match List.find f l1 with
  | Some x => Some x
  | None => List.find f l2
  end.
Proof.
  induction l1 as [|a l1 IH]; [reflexivity|].
  cbn. destruct (f a); [reflexivity|apply IH].
Qed.

(** The finder returns the first recipe node of the pre-order walk.  A
    recipe node is a non-empty dict, so the [if result:] tests never
    discard a result. *)
Lemma find_is_first data :
  _find_recipe_in_jsonld data = first_recipe_node data.
Proof.
  unfold first_recipe_node.
  induction data as [| | | | |items IH|entries IH] using pyval_ind;
    try reflexivity.
  - induction IH as [|item rest Hitem _ IHrest]; [reflexivity|].
    rewrite find_list_cons, preorder_list_cons, find_app, Hitem, IHrest.
    destruct (List.find is_recipe_node (preorder_nodes item)) as [r|] eqn:E;
      [|reflexivity].
    apply find_some in E as [_ E]. cbn. now rewrite (recipe_node_truthy _ E).
  - rewrite find_dict, preorder_dict. cbn [List.find].
    destruct (is_recipe_node (PyDict entries)); [reflexivity|].
    destruct (dict_lookup "@graph" entries) as [g|] eqn:G; [|reflexivity].
    assert (Hg : _find_recipe_in_jsonld g =
                 List.find is_recipe_node (preorder_nodes g)).
    { clear -IH G. induction entries as [|[k v] rest IHr]; [discriminate|].
      cbn [dict_lookup] in G. inversion IH as [|? ? Hv Hrest]; subst.
      destruct (String.eqb k "@graph").
      - injection G as <-. exact Hv.
      - apply IHr; assumption. }
    rewrite Hg.
    destruct (List.find is_recipe_node (preorder_nodes g)) as [r|] eqn:E;
      [|reflexivity].
    apply find_some in E as [_ E]. cbn. now rewrite (recipe_node_truthy _ E).
Qed.

(** A sequence none of whose elements leads to a recipe yields none. *)
Lemma find_list_none items :
  Forall (fun item => _find_recipe_in_jsonld item = None) items ->
  _find_recipe_in_jsonld (PyList items) = None.
Proof.
  induction 1 as [|item rest Hitem _ IH]; [reflexivity|].
  rewrite find_list_cons, Hitem. exact IH.
Qed.

(** C6. For every parsed JSON value the finder returns the first node, in
    depth-first pre-order (a mapping, then the content of its "@graph"
    field; the elements of a sequence in order), whose normalized type
    sequence contains "Recipe", and none when there is no such node.  In
    particular a type given as the list ["Recipe", "Thing"] matches, a
    Recipe inside "@graph" is found, and a sequence of non-matching nodes
    yields none. *)
Theorem find_recipe_first_in_preorder :
  (forall data, _find_recipe_in_jsonld data = first_recipe_node data)
  /\ _find_recipe_in_jsonld
       (PyDict [("@type", PyList [PyStr "Recipe"; PyStr "Thing"])])
     = Some (PyDict [("@type", PyList [PyStr "Recipe"; PyStr "Thing"])])
  /\ _find_recipe_in_jsonld
       (PyDict [("@graph",
                 PyList [PyDict [("@type", PyStr "Thing")];
                         PyDict [("@type", PyStr "Recipe");
                                 ("name", PyStr "Y")]])])
     = Some (PyDict [("@type", PyStr "Recipe"); ("name", PyStr "Y")])
  /\ _find_recipe_in_jsonld
       (PyList [PyDict [("@type", PyStr "Thing")];
                PyDict [("@type", PyStr "Person"); ("name", PyStr "Z")];
                PyStr "Recipe"])
     = None.
Proof.
  split; [exact find_is_first|]. repeat split; reflexivity.
Qed.

End Finder.

(** ** The VTT cleaner *)

Section Cleaner.

(** Induction two characters at a time, for the scans that look one
    character ahead. *)
Lemma chars_pair_ind (P : chars -> Prop) :
  P [] -> (forall c, P [c]) ->
  (forall c c' r, P r -> P (c' :: r) -> P (c :: c' :: r)) ->
  forall s, P s.
Proof.
  intros H0 H1 H2 s.
  enough (H : P s /\ forall c, P (c :: s)) by apply H.
  induction s as [|c' r [IHr IHc]]; split; auto.
Qed.

Lemma lstrip_Forall (P : ascii -> Prop) s : Forall P s -> Forall P (lstrip s).
Proof.
  induction 1 as [|c r Hc Hr IH]; cbn; [constructor|].
  destruct (is_space c); [exact IH|constructor; assumption].
Qed.

Lemma strip_Forall (P : ascii -> Prop) s : Forall P s -> Forall P (strip s).
Proof.
  intros H. unfold strip, rstrip.
  apply List.Forall_rev, lstrip_Forall, List.Forall_rev, lstrip_Forall, H.
Qed.

Lemma lstrip_idem s : lstrip (lstrip s) = lstrip s.
Proof.
  induction s as [|c r IH]; [reflexivity|].
  cbn. destruct (is_space c) eqn:E; [exact IH|]. cbn. now rewrite E.
Qed.

Lemma lstrip_snoc l c :
  is_space c = false -> lstrip (l ++ [c]) = lstrip l ++ [c].
Proof.
  intros Hc. induction l as [|a l IH]; cbn; [now rewrite Hc|].
  destruct (is_space a); [exact IH|reflexivity].
Qed.

Lemma lstrip_head s :
  lstrip s = [] \/ exists c r, lstrip s = c :: r /\ is_space c = false.
Proof.
  induction s as [|c r IH]; [now left|].
  cbn. destruct (is_space c) eqn:E; [exact IH|]. right. eauto.
Qed.

Lemma strip_idem s : strip (strip s) = strip s.
Proof.
  unfold strip at 2 3. destruct (lstrip_head s) as [->|(c & r & -> & Hc)];
    [reflexivity|].
  unfold rstrip. cbn [rev]. rewrite (lstrip_snoc _ _ Hc), rev_unit.
  unfold strip. cbn [lstrip]. rewrite Hc.
  unfold rstrip. cbn [rev]. rewrite rev_involutive, (lstrip_snoc _ _ Hc).
  now rewrite lstrip_idem, rev_unit.
Qed.

Lemma splitlines_no_break s : Forall (Forall no_break) (splitlines s).
Proof.
  induction s as [|c|c c' r IHr IHc] using chars_pair_ind.
  - constructor.
  - cbn. destruct (is_linebreak c) eqn:E; repeat constructor. exact E.
  - cbn [splitlines] in *. destruct (is_linebreak c) eqn:E.
    + constructor; [constructor|].
      destruct (Ascii.eqb c "013" && Ascii.eqb c' "010"); assumption.
    + destruct (is_linebreak c').
      * inversion IHc; subst. repeat constructor; assumption.
      * destruct (match splitlines r with [] => _ | _ => _ end);
          inversion IHc; subst; repeat constructor; assumption.
Qed.

Lemma splitlines_one_line s :
  Forall no_break s -> s <> [] -> splitlines s = [s].
Proof.
  induction 1 as [|c r Hc Hr IH]; intros Hne; [congruence|].
  cbn [splitlines]. rewrite Hc. destruct r as [|c' r']; [reflexivity|].
  now rewrite IH.
Qed.

Lemma sub_tags_Forall (P : ascii -> Prop) in_tag s :
  P " "%char -> Forall P s -> Forall P (sub_tags_from in_tag s).
Proof.
  intros Hsp H. revert in_tag.
  induction H as [|c r Hc Hr IH]; intros in_tag; cbn; [constructor|].
  destruct in_tag; [apply IH|].
  destruct (Ascii.eqb c "<" && tag_closes r); constructor; auto.
Qed.

Lemma sub_tags_none s : has_tag s = false -> sub_tags s = s.
Proof.
  unfold sub_tags. induction s as [|c r IH]; [reflexivity|].
  cbn. intros H. apply orb_false_iff in H as [-> H]. now rewrite IH.
Qed.

Lemma join_Forall (P : ascii -> Prop) sep parts :
  Forall P sep -> Forall (Forall P) parts -> Forall P (join sep parts).
Proof.
  intros Hsep H. induction H as [|p ps Hp Hps IH]; [constructor|].
  cbn [join]. destruct ps; [exact Hp|].
  apply Forall_app; split; [exact Hp|]. apply Forall_app; split; assumption.
Qed.

Lemma replace_2sp_Forall (P : ascii -> Prop) s :
  Forall P s -> Forall P (replace_2sp s).
Proof.
  induction s as [|c|c c' r IHr IHc] using chars_pair_ind; intros H.
  - constructor.
  - exact H.
  - inversion H as [|? ? Hc H']; subst. inversion H' as [|? ? Hc' Hr]; subst.
    change (replace_2sp (c :: c' :: r))
      with (if Ascii.eqb c " " && Ascii.eqb c' " "
            then " "%char :: replace_2sp r
            else c :: replace_2sp (c' :: r)).
    destruct (Ascii.eqb c " ") eqn:E; cbn [andb].
    + apply Ascii.eqb_eq in E. subst c.
      destruct (Ascii.eqb c' " "); constructor; auto.
    + constructor; auto.
Qed.

Lemma has_double_space_cons2 c c' r :
  has_double_space (c :: c' :: r) =
  Ascii.eqb c " " && Ascii.eqb c' " " || has_double_space (c' :: r).
Proof.
  transitivity (Ascii.eqb " " c && (Ascii.eqb " " c' && true)
                || has_double_space (c' :: r)); [reflexivity|].
  now rewrite andb_true_r, (Ascii.eqb_sym " " c), (Ascii.eqb_sym " " c').
Qed.

Lemma replace_2sp_none s : has_double_space s = false -> replace_2sp s = s.
Proof.
  induction s as [|c|c c' r IHr IHc] using chars_pair_ind; intros H;
    try reflexivity.
  change (replace_2sp (c :: c' :: r))
    with (if Ascii.eqb c " " && Ascii.eqb c' " "
          then " "%char :: replace_2sp r
          else c :: replace_2sp (c' :: r)).
  rewrite has_double_space_cons2 in H. apply orb_false_iff in H as [H1 H2].
  rewrite H1. f_equal. apply IHc. exact H2.
Qed.

Lemma clean_step_spec lines line :
  clean_step lines line =
  if is_empty (strip line) || is_meta_line (strip line) then lines
  else lines ++ [sub_tags (strip line)].
Proof.
  unfold clean_step, is_meta_line.
  destruct (is_empty _); [reflexivity|]. cbn [orb].
  repeat match goal with
         | |- context [if ?b then _ else _] =>
             destruct b; cbn [orb]; try reflexivity
         end.
Qed.

Lemma clean_lines_no_break ls acc :
  Forall (Forall no_break) acc -> Forall (Forall no_break) ls ->
  Forall (Forall no_break) (fold_left clean_step ls acc).
Proof.
  intros Hacc Hls. revert acc Hacc.
  induction Hls as [|line ls Hline _ IH]; intros acc Hacc; [exact Hacc|].
  cbn [fold_left]. apply IH. rewrite clean_step_spec.
  destruct (_ || _); [exact Hacc|].
  apply Forall_app; split; [exact Hacc|]. constructor; [|constructor].
  apply sub_tags_Forall; [reflexivity|]. now apply strip_Forall.
Qed.

(** The cleaner's output is one line ... *)
Lemma clean_chars_no_break x : Forall no_break (clean_chars x).
Proof.
  unfold clean_chars. apply strip_Forall, replace_2sp_Forall, join_Forall.
  - repeat constructor.
  - apply clean_lines_no_break; [constructor|apply splitlines_no_break].
Qed.

(** ... without surrounding whitespace. *)
Lemma clean_chars_stripped x : strip (clean_chars x) = clean_chars x.
Proof. unfold clean_chars. apply strip_idem. Qed.

(** Text that is one trimmed line, is no header, timing, index or
    metadata line and has neither markup nor a doubled space is left as
    it is. *)
Lemma clean_chars_fixed y :
  Forall no_break y -> strip y = y ->
  is_meta_line y = false -> has_tag y = false -> has_double_space y = false ->
  clean_chars y = y.
Proof.
  intros Hnb Hstrip Hmeta Htag Hsp. unfold clean_chars.
  destruct y as [|c r]; [reflexivity|].
  rewrite (splitlines_one_line _ Hnb) by discriminate.
  cbn [fold_left]. rewrite clean_step_spec, Hstrip, Hmeta.
  cbn [is_empty orb app join]. rewrite (sub_tags_none _ Htag).
  now rewrite (replace_2sp_none _ Hsp).
Qed.

(** C4, as amended. Cleaning the cleaner's output again yields the same
    string whenever that output is not itself a line the cleaner drops
    (the header token, a timing line, a purely numeric line, a [kind:] or
    [language:] line), contains no [<...>] markup and contains no two
    consecutive spaces. *)
Theorem clean_vtt_idempotent_on_clean_output (x : string) :
  text_is_meta_line (_clean_vtt_text x) = false ->
  text_has_tag (_clean_vtt_text x) = false ->
  text_has_double_space (_clean_vtt_text x) = false ->
  _clean_vtt_text (_clean_vtt_text x) = _clean_vtt_text x.
Proof.
  unfold text_is_meta_line, text_has_tag, text_has_double_space,
    _clean_vtt_text.
  rewrite list_ascii_of_string_of_list_ascii. intros Hmeta Htag Hsp.
  f_equal. apply clean_chars_fixed; try assumption.
  - apply clean_chars_no_break.
  - apply clean_chars_stripped.
Qed.

Lemma clean_vtt_idempotent_on_clean_output_witness :
  _clean_vtt_text sample_vtt = "Hello world"
  /\ _clean_vtt_text (_clean_vtt_text sample_vtt) = _clean_vtt_text sample_vtt.
Proof.
  split; [vm_compute; reflexivity|].
  apply (clean_vtt_idempotent_on_clean_output sample_vtt);
    vm_compute; reflexivity.
Defined.

(** C4, as stated, fails: the tag of "<b>1" is removed after the line has
    passed the cue-index test, and the output "1" is a cue index that a
    second cleaning drops. *)
Lemma clean_vtt_not_idempotent :
  _clean_vtt_text "<b>1" = "1"
  /\ _clean_vtt_text (_clean_vtt_text "<b>1") = ""
  /\ _clean_vtt_text (_clean_vtt_text "<b>1") <> _clean_vtt_text "<b>1".
Proof. repeat split; vm_compute; congruence. Qed.

(** C5. On "a <b> c" the tag becomes a third space between two spaces,
    and the single pass of [replace("  ", " ")] leaves two of them. *)
Theorem clean_vtt_double_space_survives :
  _clean_vtt_text "a <b> c" = "a  c"
  /\ text_has_double_space (_clean_vtt_text "a <b> c") = true.
Proof. split; vm_compute; reflexivity. Qed.

End Cleaner.

(** ** The transcript endpoint *)

Section Transcript.

Lemma first_vtt_url_find entries :
  first_vtt_url entries =
  match List.find (fun e => track_is_vtt e && track_has_url e) entries with
  | Some e => track_url e
  | None => None
  end.
Proof.
  induction entries as [|e rest IH]; [reflexivity|].
  cbn. destruct (track_is_vtt e && track_has_url e); [reflexivity|exact IH].
Qed.

Lemma first_any_url_find entries :
  first_any_url entries =
  match List.find track_has_url entries with
  | Some e => track_url e
  | None => None
  end.
Proof.
  induction entries as [|e rest IH]; [reflexivity|].
  cbn. destruct (track_has_url e); [reflexivity|exact IH].
Qed.

Lemma find_has_url (f : track -> bool) entries e :
  (forall t, f t = true -> track_has_url t = true) ->
  List.find f entries = Some e -> opt_str_truthy (track_url e) = true.
Proof. intros Hf H. apply find_some in H as [_ H]. exact (Hf _ H). Qed.

Lemma preferred_track_has_url entries e :
  preferred_track entries = Some e -> opt_str_truthy (track_url e) = true.
Proof.
  unfold preferred_track.
  destruct (List.find (fun e => track_is_vtt e && track_has_url e) entries)
    as [e'|] eqn:E; intros H.
  - injection H as <-.
    apply (find_has_url _ _ _ (fun t Ht => proj2 (andb_prop _ _ Ht)) E).
  - apply (find_has_url _ _ _ (fun t Ht => Ht) H).
Qed.

(** What [pick_caption_url] returns is the URL of the preferred track,
    and a URL it returns is never empty. *)
Lemma pick_caption_url_preferred lang store :
  pick_caption_url lang store =
  match preferred_track (tracks_for lang (Some store)) with
  | Some e => track_url e
  | None => None
  end.
Proof.
  unfold pick_caption_url, preferred_track, tracks_for.
  rewrite first_vtt_url_find, first_any_url_find.
  destruct (List.find (fun e => track_is_vtt e && track_has_url e) _)
    as [e|] eqn:E; [|reflexivity].
  assert (H : opt_str_truthy (track_url e) = true).
  { apply (find_has_url _ _ _ (fun t Ht => proj2 (andb_prop _ _ Ht)) E). }
  destruct (track_url e); [reflexivity|discriminate].
Qed.

Lemma tracks_for_default lang store :
  tracks_for lang (Some (default ∅ store)) = tracks_for lang store.
Proof. destruct store; [reflexivity|]. cbn. now rewrite lookup_empty. Qed.

Lemma caption_url_chosen lang i :
  caption_url_of lang i = chosen_caption_url lang i.
Proof.
  unfold caption_url_of, chosen_caption_url.
  rewrite !pick_caption_url_preferred, !tracks_for_default.
  destruct (preferred_track (tracks_for lang (subtitles i))) as [e|] eqn:E;
    [|reflexivity].
  now rewrite (preferred_track_has_url _ _ E).
Qed.

Lemma chosen_caption_url_nonempty lang i u :
  chosen_caption_url lang i = Some u -> opt_str_truthy (Some u) = true.
Proof.
  unfold chosen_caption_url. intros H.
  destruct (preferred_track (tracks_for lang (subtitles i))) as [e|] eqn:E.
  - rewrite <- H. exact (preferred_track_has_url _ _ E).
  - destruct (preferred_track (tracks_for lang (automatic_captions i)))
      as [e|] eqn:E'; [|discriminate].
    rewrite <- H. exact (preferred_track_has_url _ _ E').
Qed.

(** C2. In the fallback the caption URL is the one of the preferred track
    of the manual store for the language (a vtt track with a URL, else
    the first track with a URL), else that of the automatic store; with
    no such track the fallback raises the no-captions error and fetches
    nothing; otherwise it fetches that URL.  When no metadata was kept the
    extractor is asked first, and the same holds of what it returns. *)
Theorem fallback_caption_choice (w : world) (video_id lang : string)
    (cookies_path cookies_browser : option string) (i : info)
    (tr : list event) :
  caption_url_of lang i = chosen_caption_url lang i
  /\ _fetch_via_ytdlp w video_id lang cookies_path cookies_browser (Some i) tr
     = match chosen_caption_url lang i with
       | None => (inl no_captions, tr)
       | Some u =>
           (match requests_get w tr u with
            | inl e => inl e
            | inr resp =>
                match status_error resp with
                | Some e => inl e
                | None => inr (_clean_vtt_text (response_text resp), i)
                end
            end, tr ++ [HttpGet u 30])
       end
  /\ _fetch_via_ytdlp w video_id lang cookies_path cookies_browser None tr
     = let opts := make_ydl_opts cookies_path cookies_browser in
       let ev := ExtractInfo opts (watch_url video_id) in
       match extract_info w tr opts (watch_url video_id) with
       | inl e => (inl e, tr ++ [ev])
       | inr None => (inl no_info_attribute, tr ++ [ev])
       | inr (Some i') =>
           _fetch_via_ytdlp w video_id lang cookies_path cookies_browser
                            (Some i') (tr ++ [ev])
       end.
Proof.
  split; [apply caption_url_chosen|]. split.
  - unfold _fetch_via_ytdlp, mbind, M_bind, bind, ret, raise, call.
    rewrite caption_url_chosen.
    destruct (chosen_caption_url lang i) as [u|] eqn:E; [|reflexivity].
    rewrite (chosen_caption_url_nonempty _ _ _ E). cbn.
    destruct (requests_get w tr u) as [e|resp]; [reflexivity|].
    destruct (status_error resp); reflexivity.
  - unfold _fetch_via_ytdlp, _fetch_video_info, mbind, M_bind, bind, ret,
      raise, call. cbn.
    destruct (extract_info w tr _ _) as [e|[i'|]]; reflexivity.
Qed.

(** Whatever the collaborators do, the handler returns one of its two
    dictionaries; it never raises. *)
Lemma transcript_result_shape (w : world) (videoId lang : string)
    (tr0 : list event) :
  exists tr description title,
    (exists text,
       transcript w videoId lang tr0
       = (inr (transcript_ok videoId text description title), tr))
    \/ (exists exc fallback_exc,
       transcript w videoId lang tr0
       = (inr (transcript_failed videoId exc fallback_exc description title),
          tr)).
Proof.
  unfold transcript, _fetch_via_ytdlp, _fetch_video_info, try_except,
    mbind, M_bind, bind, ret, raise, call.
  repeat case_match; simplify_eq; eauto 12.
Qed.

(** C7. A result of the transcript endpoint with success=false carries
    transcript = none and an error string. *)
Theorem transcript_failure_carries_error (w : world) (videoId lang : string)
    (r : pydict) (tr : list event) :
  run (transcript w videoId lang) = (inr r, tr) ->
  dict_lookup "success" r = Some (PyBool false) ->
  dict_lookup "transcript" r = Some PyNone
  /\ exists message, dict_lookup "error" r = Some (PyStr message).
Proof.
  unfold run. intros Hrun Hfail.
  destruct (transcript_result_shape w videoId lang [])
    as (tr' & d & t & [(text & H)|(exc & fexc & H)]);
    rewrite H in Hrun; injection Hrun as <- <-.
  - discriminate Hfail.
  - split; [reflexivity|]. eexists. reflexivity.
Qed.

Lemma transcript_failure_carries_error_witness :
  run (transcript down_world "abc" "en")
  = (inr (transcript_failed "abc"
            (Exn OtherException "Transcripts are disabled")
            (Exn OtherException "Sign in to confirm") None None),
     [metadata_call down_world "abc"; primary_call down_world "abc" "en";
      metadata_call down_world "abc"])
  /\ dict_lookup "transcript"
       (transcript_failed "abc"
          (Exn OtherException "Transcripts are disabled")
          (Exn OtherException "Sign in to confirm") None None)
     = Some PyNone
  /\ exists message,
       dict_lookup "error"
         (transcript_failed "abc"
            (Exn OtherException "Transcripts are disabled")
            (Exn OtherException "Sign in to confirm") None None)
       = Some (PyStr message).
Proof.
  split; [reflexivity|].
  apply (transcript_failure_carries_error down_world "abc" "en" _
           [metadata_call down_world "abc"; primary_call down_world "abc" "en";
            metadata_call down_world "abc"]); reflexivity.
Defined.

(** C1, as amended. When the primary lookup returns items whose joined
    text is non-empty once surrounding whitespace is trimmed, the endpoint
    returns success=true with that trimmed text and the description and
    title kept in step 1, after the metadata call and the primary call
    and no other: the fallback is not entered and no caption track is
    fetched. *)
Theorem transcript_primary_success (w : world) (videoId lang : string)
    (transcript_items : list item) :
  get_transcript w [metadata_call w videoId] videoId [lang]
                 (getenv w "TRANSCRIPT_COOKIES_PATH")
  = inr transcript_items ->
  primary_text transcript_items <> "" ->
  run (transcript w videoId lang)
  = (inr (transcript_ok videoId (primary_text transcript_items)
                        (captured_description w videoId)
                        (captured_title w videoId)),
     [metadata_call w videoId; primary_call w videoId lang]).
Proof.
  intros Hitems Htext.
  apply String.eqb_neq in Htext.
  unfold run, transcript, _fetch_video_info, try_except, mbind, M_bind, bind,
    ret, raise, call, captured_description, captured_title, captured_info,
    metadata_call, primary_call in *.
  destruct (extract_info w [] _ _) as [e|[i|]]; cbn;
    rewrite Hitems, Htext; reflexivity.
Qed.

Lemma transcript_primary_success_witness :
  run (transcript primary_world "abc" "en")
  = (inr [ ("success", PyBool true); ("videoId", PyStr "abc");
           ("transcript", PyStr "Boil the water  Add salt");
           ("description", PyStr "How to make soup");
           ("title", PyStr "Soup") ],
     [metadata_call primary_world "abc"; primary_call primary_world "abc" "en"]).
Proof.
  apply (transcript_primary_success primary_world "abc" "en"
           [Item (Some " Boil the water"); Item None; Item (Some "Add salt ")]).
  - reflexivity.
  - vm_compute. discriminate.
Defined.

(** C1, as stated, fails: a provider item holding one space joins to a
    non-empty text, " ", which is empty once trimmed; the endpoint then
    takes the fallback, fetches the caption track and answers with the
    cleaned track. *)
Lemma transcript_blank_primary_falls_back :
  get_transcript blank_primary_world [metadata_call blank_primary_world "abc"]
                 "abc" ["en"] (getenv blank_primary_world "TRANSCRIPT_COOKIES_PATH")
  = inr [Item (Some " ")]
  /\ joined_text [Item (Some " ")] = " "
  /\ joined_text [Item (Some " ")] <> ""
  /\ run (transcript blank_primary_world "abc" "en")
     = (inr [ ("success", PyBool true); ("videoId", PyStr "abc");
              ("transcript", PyStr "hello");
              ("description", PyStr "How to make soup");
              ("title", PyStr "Soup") ],
        [metadata_call blank_primary_world "abc";
         primary_call blank_primary_world "abc" "en";
         HttpGet "https://c.example/en.vtt" 30]).
Proof.
  split; [reflexivity|]. split; [reflexivity|].
  split; [discriminate|]. vm_compute. reflexivity.
Qed.

End Transcript.

(** ** The recipe-scraping endpoint *)

Section Scrape.

Lemma find_some_recipe data node :
  _find_recipe_in_jsonld data = Some node -> is_recipe_node node = true.
Proof.
  rewrite find_is_first. unfold first_recipe_node. intros H.
  now apply find_some in H.
Qed.

Lemma recipe_node_dict node :
  is_recipe_node node = true ->
  exists fields, node = PyDict fields /\ truthy node = true.
Proof.
  intros H. pose proof (recipe_node_truthy _ H) as Ht.
  destruct node; try discriminate. eauto.
Qed.

(** The scan makes no outside call, and what it ends with is a recipe
    node or the value [recipe_data] had before. *)
Lemma scan_ld_json_trace blocks recipe_data tr :
  snd (scan_ld_json blocks recipe_data tr) = tr.
Proof.
  revert recipe_data. induction blocks as [|[e|data] rest IH];
    intros recipe_data; cbn; [reflexivity| |].
  - destruct (is_json_or_type_error e); [apply IH|reflexivity].
  - destruct (opt_truthy _); [reflexivity|apply IH].
Qed.

Lemma scan_ld_json_found blocks recipe_data tr node :
  fst (scan_ld_json blocks recipe_data tr) = inr (Some node) ->
  is_recipe_node node = true \/ recipe_data = Some node.
Proof.
  revert recipe_data. induction blocks as [|[e|data] rest IH];
    intros recipe_data; cbn.
  - intros [= ->]. now right.
  - destruct (is_json_or_type_error e); [apply IH|discriminate].
  - destruct (opt_truthy _) eqn:E.
    + intros [= H]. left. exact (find_some_recipe _ _ H).
    + intros H. apply IH in H as [H|H]; left;
        [exact H|exact (find_some_recipe _ _ H)].
Qed.

Lemma found_recipe_scan w url resp node :
  found_recipe w url resp = Some node ->
  scan_ld_json (ld_json (BeautifulSoup w (response_text resp))) None
               [HttpGet url 15]
  = (inr (Some node), [HttpGet url 15])
  /\ exists fields, node = PyDict fields /\ truthy node = true.
Proof.
  unfold found_recipe. intros H.
  pose proof (scan_ld_json_trace
                (ld_json (BeautifulSoup w (response_text resp))) None
                [HttpGet url 15]) as Htr.
  pose proof (scan_ld_json_found
                (ld_json (BeautifulSoup w (response_text resp))) None
                [HttpGet url 15] node) as Hnode.
  destruct (scan_ld_json _ None _) as [[e|[r|]] tr']; cbn in *;
    try discriminate.
  injection H as ->. subst tr'. split; [reflexivity|].
  destruct Hnode as [Hnode|Hnode]; [reflexivity| |discriminate].
  exact (recipe_node_dict _ Hnode).
Qed.

Lemma og_image_of_cases page :
  og_image_of page = PyNone
  \/ exists content,
       og_tag page = Some (Some content) /\ content <> ""
       /\ og_image_of page = PyStr content.
Proof.
  unfold og_image_of. destruct (og_tag page) as [[content|]|]; auto.
  cbn. destruct (String.eqb_spec content ""); cbn; eauto.
Qed.

(** With an og:image kept, the recipe's image field is not looked at. *)
Lemma image_from_recipe_og og recipe tr :
  truthy og = true -> image_from_recipe og recipe tr = (inr og, tr).
Proof. unfold image_from_recipe. now intros ->. Qed.

(** Without one, the image is the one the field stands for; a sequence
    whose first element is neither a string nor an object raises. *)
Lemma image_from_recipe_field fields tr :
  exists out,
    image_from_recipe PyNone (PyDict fields) tr = (out, tr)
    /\ forall image, out = inr image ->
                     image = image_of_field (dict_get "image" PyNone fields).
Proof.
  unfold image_from_recipe, image_of_field, py_get, mbind, M_bind, bind, ret,
    raise. cbn [truthy negb].
  destruct (dict_get "image" PyNone fields) as [| | |f| |items|entries];
    cbn -[dict_get]; repeat case_match; simplify_eq;
    (eexists; split; [reflexivity|]); intros image Himage; simplify_eq;
    reflexivity.
Qed.

(** The response dictionary for a page with a recipe node. *)
Lemma scrape_recipe_found (w : world) (url : string) (resp : response)
    (fields : pydict) :
  requests_get w [] url = inr resp ->
  status_error resp = None ->
  found_recipe w url resp = Some (PyDict fields) ->
  let page := BeautifulSoup w (response_text resp) in
  exists out,
    image_from_recipe (og_image_of page) (PyDict fields) [HttpGet url 15]
    = (out, [HttpGet url 15])
    /\ run (scrape_recipe w url)
       = (inr match out with
              | inr image =>
                  [ ("success", PyBool true);
                    ("recipe_data", PyDict fields);
                    ("page_text",
                      if truthy (dict_get "recipeInstructions" PyNone fields)
                      then PyNone
                      else PyStr (truncate_body (page_text page)));
                    ("title",
                      py_or (dict_get "name" PyNone fields)
                            (page_title_of page));
                    ("image_url", image) ]
              | inl e => scrape_except e
              end, [HttpGet url 15]).
Proof.
  intros Hget Hstatus Hfound page. subst page.
  apply found_recipe_scan in Hfound as [Hscan (fields' & _ & Htruthy)].
  assert (Hout : exists out,
             image_from_recipe
               (og_image_of (BeautifulSoup w (response_text resp)))
               (PyDict fields) [HttpGet url 15] = (out, [HttpGet url 15])).
  { destruct (og_image_of_cases (BeautifulSoup w (response_text resp)))
      as [->|(c & _ & Hc & ->)].
    - destruct (image_from_recipe_field fields [HttpGet url 15])
        as (out & H & _). eauto.
    - rewrite image_from_recipe_og; [eauto|]. cbn.
      now apply negb_true_iff, String.eqb_neq. }
  destruct Hout as [out Hout]. exists out. split; [exact Hout|].
  unfold run, scrape_recipe, try_except, scrape_recipe_try, mbind, M_bind,
    bind, call.
  cbn [app]. rewrite Hget, Hstatus, Hscan, Htruthy, Hout.
  destruct out as [e|image]; [reflexivity|]. cbn -[dict_get truncate_body].
  now destruct (truthy (dict_get "recipeInstructions" PyNone fields)).
Qed.

Lemma scrape_except_failed exc :
  exists message, scrape_except exc = scrape_failed message.
Proof. unfold scrape_except. repeat case_match; eauto. Qed.

(** Whatever the collaborators do, the handler returns a dictionary: a
    failure of two entries, or one with success=true. *)
Lemma scrape_result_shape (w : world) (url : string) :
  exists d tr,
    run (scrape_recipe w url) = (inr d, tr)
    /\ ((exists message, d = scrape_failed message)
        \/ dict_lookup "success" d = Some (PyBool true)).
Proof.
  unfold run, scrape_recipe, try_except, scrape_recipe_try, py_get, mbind,
    M_bind, bind, call, ret, raise.
  repeat case_match; simplify_eq;
    try (do 2 eexists; split; [reflexivity|]; right; reflexivity);
    do 2 eexists; (split; [reflexivity|]); left; apply scrape_except_failed.
Qed.

(** C3, as amended. For a page on which a recipe node is found and whose
    response is a success, the response carries the node as recipe_data;
    page_text is none when the node's recipeInstructions value is truthy
    (present, not null, not empty), and is the truncated page text when
    the field is absent or its value is falsy. *)
Theorem scrape_page_text_by_instructions (w : world) (url : string)
    (resp : response) (node : pyval) (d : pydict) (tr : list event) :
  requests_get w [] url = inr resp ->
  status_error resp = None ->
  found_recipe w url resp = Some node ->
  run (scrape_recipe w url) = (inr d, tr) ->
  dict_lookup "success" d = Some (PyBool true) ->
  let body_text :=
    truncate_body (page_text (BeautifulSoup w (response_text resp))) in
  dict_lookup "recipe_data" d = Some node
  /\ exists fields,
       node = PyDict fields
       /\ (forall v, dict_lookup "recipeInstructions" fields = Some v ->
                     truthy v = true ->
                     dict_lookup "page_text" d = Some PyNone)
       /\ (forall v, dict_lookup "recipeInstructions" fields = Some v ->
                     truthy v = false ->
                     dict_lookup "page_text" d = Some (PyStr body_text))
       /\ (dict_lookup "recipeInstructions" fields = None ->
           dict_lookup "page_text" d = Some (PyStr body_text)).
Proof.
  intros Hget Hstatus Hfound Hrun Hok body_text. subst body_text.
  destruct (found_recipe_scan _ _ _ _ Hfound) as [_ (fields & -> & _)].
  destruct (scrape_recipe_found w url resp fields Hget Hstatus Hfound)
    as (out & _ & H).
  rewrite H in Hrun. injection Hrun as <- <-.
  destruct out as [e|image].
  { destruct (scrape_except_failed e) as [m Hm]. rewrite Hm in Hok.
    discriminate. }
  split; [reflexivity|]. exists fields. split; [reflexivity|].
  cbn -[truncate_body]. unfold dict_get.
  repeat split.
  - intros v -> ->. reflexivity.
  - intros v -> ->. reflexivity.
  - intros ->. reflexivity.
Qed.

Lemma scrape_page_text_by_instructions_witness :
  run (scrape_recipe partial_recipe_world "https://example.com/recipe")
  = (inr [ ("success", PyBool true);
           ("recipe_data",
             PyDict [("@type", PyStr "Recipe"); ("name", PyStr "Soup")]);
           ("page_text", PyStr sample_body);
           ("title", PyStr "Soup");
           ("image_url", PyNone) ],
     [HttpGet "https://example.com/recipe" 15])
  /\ dict_lookup "recipeInstructions"
       [("@type", PyStr "Recipe"); ("name", PyStr "Soup")] = None
  /\ dict_lookup "page_text"
       [ ("success", PyBool true);
         ("recipe_data",
           PyDict [("@type", PyStr "Recipe"); ("name", PyStr "Soup")]);
         ("page_text", PyStr sample_body);
         ("title", PyStr "Soup");
         ("image_url", PyNone) ]
     = Some (PyStr sample_body).
Proof.
  split; [reflexivity|]. split; [reflexivity|].
  destruct (scrape_page_text_by_instructions partial_recipe_world
              "https://example.com/recipe" ok_response
              (PyDict [("@type", PyStr "Recipe"); ("name", PyStr "Soup")])
              [ ("success", PyBool true);
                ("recipe_data",
                  PyDict [("@type", PyStr "Recipe"); ("name", PyStr "Soup")]);
                ("page_text", PyStr sample_body);
                ("title", PyStr "Soup");
                ("image_url", PyNone) ]
              [HttpGet "https://example.com/recipe" 15]
              eq_refl eq_refl eq_refl eq_refl eq_refl)
    as (_ & fields & Hnode & _ & _ & Habsent).
  injection Hnode as <-. exact (Habsent eq_refl).
Defined.

(** C3, as stated, fails: a recipe node whose recipeInstructions field is
    present and empty still gets the page text. *)
Lemma scrape_empty_instructions_keeps_page_text :
  found_recipe empty_instructions_world "https://example.com/recipe"
               ok_response
  = Some (PyDict [ ("@type", PyStr "Recipe"); ("name", PyStr "Soup");
                   ("recipeInstructions", PyList []) ])
  /\ dict_lookup "recipeInstructions"
       [ ("@type", PyStr "Recipe"); ("name", PyStr "Soup");
         ("recipeInstructions", PyList []) ]
     = Some (PyList [])
  /\ run (scrape_recipe empty_instructions_world "https://example.com/recipe")
     = (inr [ ("success", PyBool true);
              ("recipe_data",
                PyDict [ ("@type", PyStr "Recipe"); ("name", PyStr "Soup");
                         ("recipeInstructions", PyList []) ]);
              ("page_text", PyStr sample_body);
              ("title", PyStr "Soup");
              ("image_url", PyNone) ],
        [HttpGet "https://example.com/recipe" 15]).
Proof. repeat split; vm_compute; reflexivity. Qed.

(** C8, as amended. On a page with a recipe node: when an og:image tag
    with non-empty content exists, the response is a success whose
    image_url is that content, whatever the recipe's image field holds;
    when there is no such tag, the image_url of a success response is the
    one the recipe's image field stands for (the field when a string, the
    first element of a sequence when a string or its url field when an
    object, the url field of a single object). *)
Theorem scrape_image_prefers_og (w : world) (url : string)
    (resp : response) (node : pyval) :
  requests_get w [] url = inr resp ->
  status_error resp = None ->
  found_recipe w url resp = Some node ->
  let page := BeautifulSoup w (response_text resp) in
  (forall content,
      og_tag page = Some (Some content) -> content <> "" ->
      exists d,
        run (scrape_recipe w url) = (inr d, [HttpGet url 15])
        /\ dict_lookup "success" d = Some (PyBool true)
        /\ dict_lookup "image_url" d = Some (PyStr content))
  /\ ((forall content, og_tag page = Some (Some content) -> content = "") ->
      forall d tr,
        run (scrape_recipe w url) = (inr d, tr) ->
        dict_lookup "success" d = Some (PyBool true) ->
        exists fields,
          node = PyDict fields
          /\ dict_lookup "image_url" d
             = Some (image_of_field (dict_get "image" PyNone fields))).
Proof.
  intros Hget Hstatus Hfound page. subst page.
  destruct (found_recipe_scan _ _ _ _ Hfound) as [_ (fields & -> & _)].
  destruct (scrape_recipe_found w url resp fields Hget Hstatus Hfound)
    as (out & Hout & H).
  split.
  - intros content Hog Hne.
    assert (Eog : og_image_of (BeautifulSoup w (response_text resp))
                  = PyStr content).
    { unfold og_image_of. rewrite Hog. cbn.
      apply String.eqb_neq in Hne. now rewrite Hne. }
    rewrite Eog, image_from_recipe_og in Hout.
    + injection Hout as <-. eexists. split; [exact H|]. split; reflexivity.
    + cbn. now apply negb_true_iff, String.eqb_neq.
  - intros Hnone d tr Hrun Hok. exists fields. split; [reflexivity|].
    assert (Eog : og_image_of (BeautifulSoup w (response_text resp)) = PyNone).
    { destruct (og_image_of_cases (BeautifulSoup w (response_text resp)))
        as [E|(c & Hc & Hne & _)]; [exact E|].
      now apply Hnone in Hc. }
    rewrite Eog in Hout.
    destruct (image_from_recipe_field fields [HttpGet url 15])
      as (out' & Hout' & Himage).
    rewrite Hout in Hout'. injection Hout' as <-.
    rewrite H in Hrun. injection Hrun as <- <-.
    destruct out as [e|image].
    + destruct (scrape_except_failed e) as [m Hm]. rewrite Hm in Hok.
      discriminate.
    + rewrite (Himage image eq_refl). reflexivity.
Qed.

Lemma scrape_image_prefers_og_witness :
  (exists d,
     run (scrape_recipe full_recipe_world "https://example.com/recipe")
     = (inr d, [HttpGet "https://example.com/recipe" 15])
     /\ dict_lookup "success" d = Some (PyBool true)
     /\ dict_lookup "image_url" d = Some (PyStr "https://img/x.jpg"))
  /\ (exists d,
        run (scrape_recipe image_list_world "https://example.com/recipe")
        = (inr d, [HttpGet "https://example.com/recipe" 15])
        /\ dict_lookup "image_url" d = Some (PyStr "https://img/z.jpg")).
Proof.
  split.
  - refine (proj1 (scrape_image_prefers_og full_recipe_world
                     "https://example.com/recipe" ok_response _
                     eq_refl eq_refl eq_refl)
                  "https://img/x.jpg" eq_refl _).
    discriminate.
  - eexists. split; [reflexivity|].
    destruct (proj2 (scrape_image_prefers_og image_list_world
                       "https://example.com/recipe" ok_response _
                       eq_refl eq_refl eq_refl)
                    (fun content H => ltac:(discriminate H))
                    _ _ eq_refl eq_refl)
      as (fields & Hnode & Himage).
    injection Hnode as <-. exact Himage.
Defined.

(** C8, as stated, fails: an og:image tag with empty content exists
    beside a recipe image, and image_url is the recipe's image, not the
    content of the tag. *)
Lemma scrape_blank_og_uses_recipe_image :
  og_tag (BeautifulSoup blank_og_world (response_text ok_response))
  = Some (Some "")
  /\ found_recipe blank_og_world "https://example.com/recipe" ok_response
     = Some (PyDict [ ("@type", PyStr "Recipe"); ("name", PyStr "Soup");
                      ("image", PyStr "https://img/y.jpg");
                      ("recipeInstructions", PyList [PyStr "Boil"]) ])
  /\ run (scrape_recipe blank_og_world "https://example.com/recipe")
     = (inr [ ("success", PyBool true);
              ("recipe_data",
                PyDict [ ("@type", PyStr "Recipe"); ("name", PyStr "Soup");
                         ("image", PyStr "https://img/y.jpg");
                         ("recipeInstructions", PyList [PyStr "Boil"]) ]);
              ("page_text", PyNone);
              ("title", PyStr "Soup");
              ("image_url", PyStr "https://img/y.jpg") ],
        [HttpGet "https://example.com/recipe" 15]).
Proof. repeat split; vm_compute; reflexivity. Qed.

(** C9. When the page fetch times out the endpoint returns exactly
    success=false with the error "Request timed out"; on any other
    failure of the request (raised by the call or by the status check)
    it returns success=false with "Failed to fetch page: " and the
    cause. *)
Theorem scrape_fetch_failure (w : world) (url : string) (e : exn) :
  fetch_error w url = Some e ->
  (is_timeout e = true ->
   run (scrape_recipe w url)
   = (inr [("success", PyBool false); ("error", PyStr "Request timed out")],
      [HttpGet url 15]))
  /\ (is_timeout e = false -> is_request_exception e = true ->
      run (scrape_recipe w url)
      = (inr [ ("success", PyBool false);
               ("error", PyStr ("Failed to fetch page: " +:+ exn_msg e)) ],
         [HttpGet url 15])).
Proof.
  unfold fetch_error, run, scrape_recipe, try_except, scrape_recipe_try,
    mbind, M_bind, bind, call, ret, raise, scrape_except, scrape_failed.
  cbn [app]. intros He.
  destruct (requests_get w [] url) as [e'|resp].
  - injection He as ->. split; [intros ->; reflexivity|].
    intros -> ->. reflexivity.
  - rewrite He. split; [intros ->; reflexivity|].
    intros -> ->. reflexivity.
Qed.

Lemma scrape_fetch_failure_witness :
  run (scrape_recipe timeout_world "https://example.com/recipe")
  = (inr [("success", PyBool false); ("error", PyStr "Request timed out")],
     [HttpGet "https://example.com/recipe" 15])
  /\ run (scrape_recipe not_found_world "https://example.com/recipe")
     = (inr [ ("success", PyBool false);
              ("error",
                PyStr "Failed to fetch page: 404 Client Error: Not Found") ],
        [HttpGet "https://example.com/recipe" 15]).
Proof.
  split.
  - exact (proj1 (scrape_fetch_failure timeout_world
                    "https://example.com/recipe" _ eq_refl) eq_refl).
  - exact (proj2 (scrape_fetch_failure not_found_world
                    "https://example.com/recipe" _ eq_refl) eq_refl eq_refl).
Defined.

(** C10. A response of the recipe-scrape endpoint with success=false
    holds exactly the two keys success and error, whatever was extracted
    before the exception. *)
Theorem scrape_failure_keys (w : world) (url : string) (d : pydict)
    (tr : list event) :
  run (scrape_recipe w url) = (inr d, tr) ->
  dict_lookup "success" d = Some (PyBool false) ->
  keys d = ["success"; "error"]
  /\ exists message,
       d = [("success", PyBool false); ("error", PyStr message)].
Proof.
  intros Hrun Hfail.
  destruct (scrape_result_shape w url) as (d' & tr' & H & Hshape).
  rewrite H in Hrun. injection Hrun as <- <-.
  destruct Hshape as [[m ->]|Hok].
  - split; [reflexivity|]. exists m. reflexivity.
  - rewrite Hok in Hfail. discriminate.
Qed.

Lemma scrape_failure_keys_witness :
  run (scrape_recipe bad_image_world "https://example.com/recipe")
  = (inr [ ("success", PyBool false);
           ("error",
             PyStr "Scraping failed: 'int' object has no attribute 'get'") ],
     [HttpGet "https://example.com/recipe" 15])
  /\ keys [ ("success", PyBool false);
            ("error",
              PyStr "Scraping failed: 'int' object has no attribute 'get'") ]
     = ["success"; "error"].
Proof.
  split; [reflexivity|].
  exact (proj1 (scrape_failure_keys bad_image_world
                  "https://example.com/recipe" _
                  [HttpGet "https://example.com/recipe" 15]
                  eq_refl eq_refl)).
Defined.

End Scrape.

(** * Further properties *)

(** ** The VTT cleaner *)

Section CleanerMore.

Lemma clean_step_dropped lines line :
  dropped_line line = true -> clean_step lines line = lines.
Proof. unfold dropped_line. intros H. now rewrite clean_step_spec, H. Qed.

Lemma clean_lines_all_dropped ls acc :
  forallb dropped_line ls = true -> fold_left clean_step ls acc = acc.
Proof.
  induction ls as [|line ls IH]; [reflexivity|].
  cbn. intros H. apply andb_prop in H as [Hline Hls].
  now rewrite (clean_step_dropped _ _ Hline), IH.
Qed.

(** X1. A text all of whose lines are empty, the header token, timing
    lines, cue indices or [kind:]/[language:] lines is cleaned to the
    empty string. *)
Theorem clean_vtt_only_dropped_lines (vtt_text : string) :
  all_lines_dropped vtt_text = true -> _clean_vtt_text vtt_text = "".
Proof.
  unfold all_lines_dropped, _clean_vtt_text, clean_chars. intros H.
  now rewrite (clean_lines_all_dropped _ _ H).
Qed.

Lemma clean_vtt_only_dropped_lines_witness :
  all_lines_dropped header_only_vtt = true
  /\ _clean_vtt_text header_only_vtt = "".
Proof.
  split; [vm_compute; reflexivity|].
  apply (clean_vtt_only_dropped_lines header_only_vtt).
  vm_compute. reflexivity.
Defined.

(** X2. Whatever the input, the cleaned text holds no line-break
    character and has no whitespace at either end. *)
Theorem clean_vtt_single_trimmed_line (vtt_text : string) :
  text_one_line (_clean_vtt_text vtt_text) = true
  /\ strip_string (_clean_vtt_text vtt_text) = _clean_vtt_text vtt_text.
Proof.
  unfold text_one_line, strip_string, _clean_vtt_text.
  rewrite list_ascii_of_string_of_list_ascii. split.
  - apply forallb_forall. intros c Hc.
    pose proof (clean_chars_no_break (list_ascii_of_string vtt_text)) as H.
    rewrite List.Forall_forall in H. unfold no_break in H.
    now rewrite (H c Hc).
  - now rewrite clean_chars_stripped.
Qed.

Lemma existsb_gt_Forall s : existsb (Ascii.eqb ">") s = false <-> Forall no_gt s.
Proof.
  induction s as [|c r IH]; cbn.
  - split; [constructor|reflexivity].
  - rewrite orb_false_iff, IH. split.
    + intros [Hc Hr]. constructor; assumption.
    + intros H. inversion H; subst. split; assumption.
Qed.

Lemma tag_closes_sub_tags r :
  tag_closes r = false -> tag_closes (sub_tags_from false r) = false.
Proof.
  destruct r as [|c r']; [reflexivity|]. cbn [tag_closes]. intros H.
  destruct (Ascii.eqb c ">") eqn:Ec.
  - apply Ascii.eqb_eq in Ec. subst c. reflexivity.
  - cbn [negb andb] in H. cbn [sub_tags_from].
    assert (Hr' : tag_closes r' = false).
    { destruct r' as [|c'' r'']; [reflexivity|]. cbn in H |- *.
      apply orb_false_iff in H as [_ H]. rewrite H. apply andb_false_r. }
    rewrite Hr', andb_false_r. cbn [tag_closes]. rewrite Ec. cbn [negb andb].
    apply existsb_gt_Forall, sub_tags_Forall; [reflexivity|].
    now apply existsb_gt_Forall.
Qed.

(** After the substitution no match of the pattern is left in a line. *)
Lemma sub_tags_no_tag in_tag s : has_tag (sub_tags_from in_tag s) = false.
Proof.
  revert in_tag. induction s as [|c r IH]; intros in_tag; [reflexivity|].
  cbn [sub_tags_from]. destruct in_tag; [apply IH|].
  destruct (Ascii.eqb c "<" && tag_closes r) eqn:E.
  - cbn [has_tag]. rewrite IH. reflexivity.
  - cbn [has_tag]. rewrite IH, orb_false_r.
    apply andb_false_iff in E as [->|E]; [reflexivity|].
    rewrite (tag_closes_sub_tags _ E). apply andb_false_r.
Qed.

Lemma surviving_lines_tag_free ls acc :
  Forall (fun l => has_tag l = false) acc ->
  Forall (fun l => has_tag l = false) (fold_left clean_step ls acc).
Proof.
  revert acc. induction ls as [|line ls IH]; intros acc Hacc; [exact Hacc|].
  cbn [fold_left]. apply IH. rewrite clean_step_spec.
  destruct (_ || _); [exact Hacc|].
  apply Forall_app; split; [exact Hacc|]. constructor; [|constructor].
  apply sub_tags_no_tag.
Qed.

(** X3. Whatever the input, no line kept by the loop holds a match of
    [<[^>]+>] once its markup is replaced: one substitution pass leaves
    nothing to strip in a line. *)
Theorem clean_vtt_lines_tag_free (vtt_text : string) :
  forallb (fun l => negb (has_tag l))
          (surviving_lines (list_ascii_of_string vtt_text)) = true.
Proof.
  apply forallb_forall. intros l Hl.
  pose proof (surviving_lines_tag_free
                (splitlines (list_ascii_of_string vtt_text)) []
                (List.Forall_nil _)) as H.
  rewrite List.Forall_forall in H. fold (surviving_lines
                                          (list_ascii_of_string vtt_text)) in H.
  now rewrite (H l Hl).
Qed.

Lemma has_tag_tail c r : has_tag (c :: r) = false -> has_tag r = false.
Proof. cbn. intros H. now apply orb_false_iff in H. Qed.

Lemma has_tag_lstrip s : has_tag s = false -> has_tag (lstrip s) = false.
Proof.
  induction s as [|c r IH]; [reflexivity|]. intros H. cbn [lstrip].
  destruct (is_space c); [|exact H]. apply IH, (has_tag_tail _ _ H).
Qed.

Lemma tag_closes_prefix s t :
  tag_closes (s ++ t) = false -> tag_closes s = false.
Proof.
  destruct s as [|c s']; [reflexivity|]. cbn. rewrite existsb_app.
  destruct (Ascii.eqb c ">"); [reflexivity|]. cbn.
  intros H. now apply orb_false_iff in H.
Qed.

Lemma has_tag_prefix s t : has_tag (s ++ t) = false -> has_tag s = false.
Proof.
  induction s as [|c r IH]; [reflexivity|]. cbn [app has_tag].
  intros H. apply orb_false_iff in H as [H1 H2]. rewrite (IH H2), orb_false_r.
  apply andb_false_iff in H1 as [->|H1]; [reflexivity|].
  rewrite (tag_closes_prefix _ _ H1). apply andb_false_r.
Qed.

Lemma lstrip_suffix s : exists p, s = p ++ lstrip s.
Proof.
  induction s as [|c r [p IH]]; [now exists []|]. cbn [lstrip].
  destruct (is_space c); [|now exists []].
  exists (c :: p). cbn. now f_equal.
Qed.

Lemma rstrip_prefix s : exists t, s = rstrip s ++ t.
Proof.
  unfold rstrip. destruct (lstrip_suffix (rev s)) as [p Hp].
  exists (rev p). rewrite <- rev_app_distr, <- Hp. now rewrite rev_involutive.
Qed.

Lemma has_tag_strip s : has_tag s = false -> has_tag (strip s) = false.
Proof.
  intros H. unfold strip. apply has_tag_lstrip in H.
  destruct (rstrip_prefix (lstrip s)) as [t Ht]. rewrite Ht in H.
  exact (has_tag_prefix _ _ H).
Qed.

Lemma replace_2sp_cons c r : exists tl, replace_2sp (c :: r) = c :: tl.
Proof.
  destruct r as [|c' r']; [now exists []|]. cbn [replace_2sp].
  destruct (Ascii.eqb c " " && Ascii.eqb c' " ") eqn:E; [|eauto].
  apply andb_prop in E as [E _]. apply Ascii.eqb_eq in E. subst c. eauto.
Qed.

Lemma tag_closes_replace_2sp r :
  tag_closes r = false -> tag_closes (replace_2sp r) = false.
Proof.
  destruct r as [|c r']; [reflexivity|]. intros H.
  destruct (replace_2sp_cons c r') as [tl Htl]. rewrite Htl.
  cbn [tag_closes] in *. destruct (Ascii.eqb c ">") eqn:Ec; [reflexivity|].
  cbn [negb andb] in *. apply existsb_gt_Forall.
  assert (Hall : Forall no_gt (c :: tl)).
  { rewrite <- Htl. apply replace_2sp_Forall. constructor.
    - unfold no_gt. now rewrite Ascii.eqb_sym.
    - now apply existsb_gt_Forall. }
  now inversion Hall.
Qed.

Lemma has_tag_replace_2sp s :
  has_tag s = false -> has_tag (replace_2sp s) = false.
Proof.
  induction s as [|c|c c' r IHr IHc] using chars_pair_ind; intros H.
  - reflexivity.
  - exact H.
  - change (replace_2sp (c :: c' :: r))
      with (if Ascii.eqb c " " && Ascii.eqb c' " "
            then " "%char :: replace_2sp r
            else c :: replace_2sp (c' :: r)).
    pose proof (has_tag_tail _ _ H) as H'.
    destruct (Ascii.eqb c " " && Ascii.eqb c' " ").
    + cbn [has_tag]. rewrite (IHr (has_tag_tail _ _ H')). reflexivity.
    + cbn [has_tag] in H |- *. rewrite (IHc H'), orb_false_r.
      apply orb_false_iff in H as [H _].
      apply andb_false_iff in H as [->|H]; [reflexivity|].
      rewrite (tag_closes_replace_2sp _ H). apply andb_false_r.
Qed.

Lemma one_line_chars s :
  forallb (fun c => negb (is_linebreak c)) s = true -> Forall no_break s.
Proof.
  intros H. apply List.Forall_forall. intros c Hc.
  rewrite forallb_forall in H. specialize (H c Hc).
  now apply negb_true_iff in H.
Qed.

(** The cleaner on a text without line breaks: one line goes through
    the loop. *)
Lemma clean_chars_one_line s :
  Forall no_break s ->
  clean_chars s =
  if dropped_line s then [] else strip (replace_2sp (sub_tags (strip s))).
Proof.
  intros Hnb. unfold clean_chars, dropped_line.
  destruct s as [|c r]; [reflexivity|].
  rewrite (splitlines_one_line _ Hnb) by discriminate.
  cbn [fold_left]. rewrite clean_step_spec.
  destruct (_ || _); reflexivity.
Qed.

(** X4. For a text without line breaks the cleaned text holds no match
    of [<[^>]+>]: markup can only reappear where lines are joined. *)
Theorem clean_vtt_one_line_tag_free (vtt_text : string) :
  text_one_line vtt_text = true ->
  text_has_tag (_clean_vtt_text vtt_text) = false.
Proof.
  unfold text_one_line, text_has_tag, _clean_vtt_text. intros H.
  rewrite list_ascii_of_string_of_list_ascii.
  rewrite (clean_chars_one_line _ (one_line_chars _ H)).
  destruct (dropped_line _); [reflexivity|].
  apply has_tag_strip, has_tag_replace_2sp, sub_tags_no_tag.
Qed.

Lemma clean_vtt_one_line_tag_free_witness :
  text_one_line "<v Ann>Boil <i>the</i> water</v> <00:01.000>now" = true
  /\ _clean_vtt_text "<v Ann>Boil <i>the</i> water</v> <00:01.000>now"
     = "Boil the water  now"
  /\ text_has_tag
       (_clean_vtt_text "<v Ann>Boil <i>the</i> water</v> <00:01.000>now")
     = false.
Proof.
  split; [reflexivity|]. split; [vm_compute; reflexivity|].
  apply (clean_vtt_one_line_tag_free
           "<v Ann>Boil <i>the</i> water</v> <00:01.000>now").
  reflexivity.
Defined.

Lemma contains_tail p c r : contains p (c :: r) = false -> contains p r = false.
Proof. cbn [contains]. intros H. now apply orb_false_iff in H. Qed.

Lemma contains_suffix p x s : contains p (x ++ s) = false -> contains p s = false.
Proof.
  induction x as [|c x IH]; [trivial|]. cbn [app]. intros H.
  apply IH, (contains_tail _ _ _ H).
Qed.

Lemma startswith_prefix p s t :
  startswith p (s ++ t) = false -> startswith p s = false.
Proof.
  revert s. induction p as [|a p IH]; intros s; [discriminate|].
  destruct s as [|b s]; [reflexivity|]. cbn.
  destruct (Ascii.eqb a b); [apply IH|reflexivity].
Qed.

Lemma contains_prefix p s t :
  p <> [] -> contains p (s ++ t) = false -> contains p s = false.
Proof.
  intros Hp. induction s as [|c s IH].
  - intros _. destruct p; [congruence|reflexivity].
  - cbn [app contains]. intros H. apply orb_false_iff in H as [H1 H2].
    rewrite (IH H2), orb_false_r.
    exact (startswith_prefix p (c :: s) t H1).
Qed.

Lemma has_double_space_strip s :
  has_double_space s = false -> has_double_space (strip s) = false.
Proof.
  unfold has_double_space, strip. intros H.
  destruct (lstrip_suffix s) as [p Hp]. rewrite Hp in H.
  apply contains_suffix in H.
  destruct (rstrip_prefix (lstrip s)) as [t Ht]. rewrite Ht in H.
  apply contains_prefix in H; [exact H|discriminate].
Qed.

Lemma has_triple_space_cons3 d r :
  has_triple_space (" "%char :: " "%char :: d :: r) =
  Ascii.eqb d " " || has_triple_space (" "%char :: d :: r).
Proof.
  transitivity (Ascii.eqb " " d && true
                || has_triple_space (" "%char :: d :: r)); [reflexivity|].
  now rewrite andb_true_r, (Ascii.eqb_sym " " d).
Qed.

Lemma has_double_space_one c : has_double_space [c] = false.
Proof.
  unfold has_double_space. cbn. now rewrite andb_false_r.
Qed.

(** Where no three spaces meet, the single pass leaves no two. *)
Lemma replace_2sp_no_double s :
  has_triple_space s = false -> has_double_space (replace_2sp s) = false.
Proof.
  induction s as [|c|c c' r IHr IHc] using chars_pair_ind; intros H.
  - reflexivity.
  - apply has_double_space_one.
  - change (replace_2sp (c :: c' :: r))
      with (if Ascii.eqb c " " && Ascii.eqb c' " "
            then " "%char :: replace_2sp r
            else c :: replace_2sp (c' :: r)).
    pose proof (contains_tail _ _ _ H) as H'.
    destruct (Ascii.eqb c " " && Ascii.eqb c' " ") eqn:E.
    + apply andb_prop in E as [Ec Ec']. apply Ascii.eqb_eq in Ec, Ec'.
      subst c c'. destruct r as [|d r2]; [apply has_double_space_one|].
      rewrite has_triple_space_cons3 in H.
      apply orb_false_iff in H as [Hd _].
      destruct (replace_2sp_cons d r2) as [tl Htl].
      pose proof (IHr (contains_tail _ _ _ H')) as IH. rewrite Htl in IH |- *.
      rewrite has_double_space_cons2, Hd, andb_false_r. exact IH.
    + destruct (replace_2sp_cons c' r) as [tl Htl].
      pose proof (IHc H') as IH. rewrite Htl in IH |- *.
      rewrite has_double_space_cons2, E. exact IH.
Qed.

(** X5. When the joined lines hold no run of three spaces, the cleaned
    text holds no two consecutive spaces: the single [replace] pass falls
    short only on longer runs. *)
Theorem clean_vtt_collapses_short_runs (vtt_text : string) :
  has_triple_space (joined_lines vtt_text) = false ->
  text_has_double_space (_clean_vtt_text vtt_text) = false.
Proof.
  unfold joined_lines, surviving_lines, text_has_double_space,
    _clean_vtt_text, clean_chars.
  rewrite list_ascii_of_string_of_list_ascii. intros H.
  apply has_double_space_strip, replace_2sp_no_double, H.
Qed.

Lemma clean_vtt_collapses_short_runs_witness :
  _clean_vtt_text ("Boil  the" +:+ nl +:+ "water  now") = "Boil the water now"
  /\ text_has_double_space
       (_clean_vtt_text ("Boil  the" +:+ nl +:+ "water  now")) = false.
Proof.
  split; [vm_compute; reflexivity|].
  apply (clean_vtt_collapses_short_runs
           ("Boil  the" +:+ nl +:+ "water  now")).
  vm_compute. reflexivity.
Defined.

End CleanerMore.

(** ** The JSON-LD recipe finder *)

Section FinderMore.

(** X6. Whatever the finder returns is a node of the walk over its
    argument, and is a non-empty mapping whose type field holds
    "Recipe". *)
Theorem find_result_is_recipe_mapping (data node : pyval) :
  _find_recipe_in_jsonld data = Some node ->
  In node (preorder_nodes data)
  /\ is_recipe_node node = true
  /\ exists fields, node = PyDict fields /\ fields <> [].
Proof.
  intros H. pose proof (find_some_recipe _ _ H) as Hnode.
  rewrite find_is_first in H. unfold first_recipe_node in H.
  apply find_some in H as [Hin _]. split; [exact Hin|]. split; [exact Hnode|].
  destruct node as [| | | | |items|fields]; try discriminate.
  exists fields. split; [reflexivity|]. intros ->. discriminate.
Qed.

Lemma find_result_is_recipe_mapping_witness :
  _find_recipe_in_jsonld
    (PyList [PyStr "x";
             PyDict [("@graph", PyDict [("@type", PyStr "Recipe")])]])
  = Some (PyDict [("@type", PyStr "Recipe")])
  /\ is_recipe_node (PyDict [("@type", PyStr "Recipe")]) = true.
Proof.
  split; [reflexivity|].
  exact (proj1 (proj2 (find_result_is_recipe_mapping
                         (PyList [PyStr "x";
                                  PyDict [("@graph",
                                           PyDict [("@type", PyStr "Recipe")])]])
                         _ eq_refl))).
Defined.

Lemma find_recipe_root node :
  is_recipe_node node = true -> _find_recipe_in_jsonld node = Some node.
Proof.
  intros H. destruct (recipe_node_dict _ H) as (fields & -> & _).
  now rewrite find_dict, H.
Qed.

(** X7. Searching the node the finder returned returns that node
    again. *)
Theorem find_idempotent (data node : pyval) :
  _find_recipe_in_jsonld data = Some node ->
  _find_recipe_in_jsonld node = Some node.
Proof. intros H. apply find_recipe_root, (find_some_recipe _ _ H). Qed.

Lemma find_idempotent_witness :
  _find_recipe_in_jsonld
    (PyDict [("@type", PyList [PyStr "Recipe"]);
             ("@graph", PyList [PyDict [("@type", PyStr "Recipe")]])])
  = Some (PyDict [("@type", PyList [PyStr "Recipe"]);
                  ("@graph", PyList [PyDict [("@type", PyStr "Recipe")]])]).
Proof.
  apply (find_idempotent
           (PyList [PyDict [("@type", PyList [PyStr "Recipe"]);
                            ("@graph",
                             PyList [PyDict [("@type", PyStr "Recipe")]])]])).
  reflexivity.
Defined.

(** X8. In a mapping that is not itself a recipe only the "@graph" field
    is searched: the result is that of the field's value, and none when
    the key is missing, whatever the other fields hold. *)
Theorem find_non_recipe_mapping (entries : pydict) :
  is_recipe_node (PyDict entries) = false ->
  _find_recipe_in_jsonld (PyDict entries)
  = match dict_lookup "@graph" entries with
    | Some g => _find_recipe_in_jsonld g
    | None => None
    end.
Proof.
  intros H. rewrite find_dict, H.
  destruct (dict_lookup "@graph" entries) as [g|]; [|reflexivity].
  destruct (_find_recipe_in_jsonld g) as [node|] eqn:E; [|reflexivity].
  cbn. now rewrite (recipe_node_truthy _ (find_some_recipe _ _ E)).
Qed.

Lemma find_non_recipe_mapping_witness :
  _find_recipe_in_jsonld
    (PyDict [("@type", PyStr "WebPage");
             ("mainEntity", PyDict [("@type", PyStr "Recipe")])])
  = None.
Proof.
  apply (find_non_recipe_mapping
           [("@type", PyStr "WebPage");
            ("mainEntity", PyDict [("@type", PyStr "Recipe")])]).
  reflexivity.
Defined.

(** X9. The search of a concatenated sequence is the search of its first
    part and, when that finds nothing, of its second part. *)
Theorem find_list_app (items1 items2 : list pyval) :
  _find_recipe_in_jsonld (PyList (items1 ++ items2))
  = match _find_recipe_in_jsonld (PyList items1) with
    | Some node => Some node
    | None => _find_recipe_in_jsonld (PyList items2)
    end.
Proof.
  induction items1 as [|item rest IH]; [reflexivity|].
  cbn [app]. rewrite !find_list_cons, IH.
  destruct (_find_recipe_in_jsonld item) as [node|] eqn:E; [|reflexivity].
  cbn. now rewrite (recipe_node_truthy _ (find_some_recipe _ _ E)).
Qed.

End FinderMore.

(** ** The transcript endpoint *)

Section TranscriptMore.

Lemma fetch_via_ytdlp_with_info (w : world) (video_id lang : string)
    (cookies_path cookies_browser : option string) (i : info)
    (tr : list event) :
  _fetch_via_ytdlp w video_id lang cookies_path cookies_browser (Some i) tr
  = match chosen_caption_url lang i with
    | None => (inl no_captions, tr)
    | Some u =>
        (match requests_get w tr u with
         | inl e => inl e
         | inr resp =>
             match status_error resp with
             | Some e => inl e
             | None => inr (_clean_vtt_text (response_text resp), i)
             end
         end, tr ++ [HttpGet u 30])
    end.
Proof.
  unfold _fetch_via_ytdlp, mbind, M_bind, bind, ret, raise, call.
  rewrite caption_url_chosen.
  destruct (chosen_caption_url lang i) as [u|] eqn:E; [|reflexivity].
  rewrite (chosen_caption_url_nonempty _ _ _ E). cbn.
  destruct (requests_get w tr u) as [e|resp]; [reflexivity|].
  destruct (status_error resp); reflexivity.
Qed.

Lemma fetch_via_ytdlp_without_info (w : world) (video_id lang : string)
    (cookies_path cookies_browser : option string) (tr : list event) :
  _fetch_via_ytdlp w video_id lang cookies_path cookies_browser None tr
  = match extract_info w tr (make_ydl_opts cookies_path cookies_browser)
                       (watch_url video_id) with
    | inl e =>
        (inl e, tr ++ [ExtractInfo (make_ydl_opts cookies_path cookies_browser)
                                   (watch_url video_id)])
    | inr None =>
        (inl no_info_attribute,
         tr ++ [ExtractInfo (make_ydl_opts cookies_path cookies_browser)
                            (watch_url video_id)])
    | inr (Some i) =>
        _fetch_via_ytdlp w video_id lang cookies_path cookies_browser (Some i)
          (tr ++ [ExtractInfo (make_ydl_opts cookies_path cookies_browser)
                              (watch_url video_id)])
    end.
Proof.
  unfold _fetch_via_ytdlp, _fetch_video_info, mbind, M_bind, bind, ret,
    raise, call. cbn.
  destruct (extract_info w tr _ _) as [e|[i'|]]; reflexivity.
Qed.

(** The handler once the primary attempt has failed: the fallback runs
    after the first two calls, on the metadata step 1 kept. *)
Lemma transcript_run_fallback (w : world) (videoId lang : string)
    (exc : exn) :
  primary_exception w videoId lang = Some exc ->
  run (transcript w videoId lang)
  = match _fetch_via_ytdlp w videoId lang
            (getenv w "TRANSCRIPT_COOKIES_PATH")
            (getenv w "TRANSCRIPT_COOKIES_BROWSER")
            (captured_info w videoId)
            [metadata_call w videoId; primary_call w videoId lang] with
    | (inr (text, i), tr) =>
        (inr (transcript_ok videoId text
                (if info_truthy i
                    && negb (opt_str_truthy (captured_description w videoId))
                 then info_description i else captured_description w videoId)
                (if info_truthy i
                    && negb (opt_str_truthy (captured_description w videoId))
                 then info_title i else captured_title w videoId)), tr)
    | (inl fallback_exc, tr) =>
        (inr (transcript_failed videoId exc fallback_exc
                (captured_description w videoId) (captured_title w videoId)),
         tr)
    end.
Proof.
  unfold primary_exception, run, transcript, _fetch_video_info, try_except,
    mbind, M_bind, bind, ret, raise, call, captured_description,
    captured_title, captured_info, metadata_call, primary_call.
  intros Hexc.
  destruct (extract_info w [] _ _) as [e|[i|]]; cbn [app] in *;
    destruct (get_transcript w _ videoId [lang] _) as [e'|items];
    try (destruct (String.eqb (primary_text items) "") eqn:Et;
         [|discriminate]);
    injection Hexc as <-;
    destruct (_fetch_via_ytdlp w videoId lang _ _ _ _) as [[fexc|[text i']] tr];
    try reflexivity;
    destruct (info_truthy i' && _); reflexivity.
Qed.

(** The calls of one request: the metadata call, the primary call, then
    at most a second metadata call, made only when step 1 kept nothing,
    and at most one download with the 30-second timeout. *)
Lemma transcript_trace_shape (w : world) (videoId lang : string) :
  exists rest,
    snd (run (transcript w videoId lang))
    = metadata_call w videoId :: primary_call w videoId lang :: rest
    /\ (rest = []
        \/ (exists u, rest = [HttpGet u 30])
        \/ (captured_info w videoId = None
            /\ (rest = [metadata_call w videoId]
                \/ exists u, rest = [metadata_call w videoId; HttpGet u 30]))).
Proof.
  unfold run, transcript, _fetch_via_ytdlp, _fetch_video_info, try_except,
    mbind, M_bind, bind, ret, raise, call, captured_info, metadata_call,
    primary_call.
  repeat case_match; simplify_eq; cbn; eexists; (split; [reflexivity|]);
    eauto 8.
Qed.

(** X10. One request makes the metadata call, then the primary call,
    then at most one more metadata call (only when step 1 kept no
    metadata) and at most one caption download, in this order, and
    nothing else. *)
Theorem transcript_outside_calls (w : world) (videoId lang : string) :
  exists rest,
    snd (run (transcript w videoId lang))
    = metadata_call w videoId :: primary_call w videoId lang :: rest
    /\ (rest = []
        \/ (exists u, rest = [HttpGet u 30])
        \/ (captured_info w videoId = None
            /\ (rest = [metadata_call w videoId]
                \/ exists u, rest = [metadata_call w videoId; HttpGet u 30]))).
Proof. apply transcript_trace_shape. Qed.

Lemma ydl_opts_exclusive (cookies_path cookies_browser : option string) :
  let opts := make_ydl_opts cookies_path cookies_browser in
  (cookiefile opts = None \/ cookiesfrombrowser opts = None)
  /\ (opt_str_truthy cookies_path = true ->
      cookiefile opts = cookies_path /\ cookiesfrombrowser opts = None)
  /\ (opt_str_truthy cookies_path = false ->
      opt_str_truthy cookies_browser = true ->
      cookiefile opts = None /\ cookiesfrombrowser opts = cookies_browser).
Proof.
  unfold make_ydl_opts. cbn.
  destruct (opt_str_truthy cookies_path), (opt_str_truthy cookies_browser);
    cbn; repeat split; auto; discriminate.
Qed.

(** X11. Every call to the extractor is for the watch URL of the
    requested video and never carries both a cookie file and a browser:
    a non-empty cookie path is passed as the cookie file and the browser
    is dropped; the browser is passed only when the path is unset or
    empty. *)
Theorem transcript_extractor_options (w : world) (videoId lang : string)
    (opts : ydl_opts) (target : string) :
  In (ExtractInfo opts target) (snd (run (transcript w videoId lang))) ->
  target = watch_url videoId
  /\ (cookiefile opts = None \/ cookiesfrombrowser opts = None)
  /\ (opt_str_truthy (getenv w "TRANSCRIPT_COOKIES_PATH") = true ->
      cookiefile opts = getenv w "TRANSCRIPT_COOKIES_PATH"
      /\ cookiesfrombrowser opts = None)
  /\ (opt_str_truthy (getenv w "TRANSCRIPT_COOKIES_PATH") = false ->
      opt_str_truthy (getenv w "TRANSCRIPT_COOKIES_BROWSER") = true ->
      cookiefile opts = None
      /\ cookiesfrombrowser opts = getenv w "TRANSCRIPT_COOKIES_BROWSER").
Proof.
  intros Hin.
  assert (Hev : ExtractInfo opts target = metadata_call w videoId).
  { destruct (transcript_trace_shape w videoId lang) as (rest & Htr & Hrest).
    rewrite Htr in Hin. unfold primary_call in Hin.
    destruct Hrest as [->|[[u ->]|[_ [->|[u ->]]]]]; cbn in Hin;
      intuition congruence. }
  unfold metadata_call in Hev. injection Hev as -> ->.
  split; [reflexivity|]. apply ydl_opts_exclusive.
Qed.

Lemma transcript_extractor_options_witness :
  snd (run (transcript cookie_world "abc" "en"))
  = [ ExtractInfo {| cookiefile := Some "/srv/cookies.txt";
                     cookiesfrombrowser := None |}
                  "https://www.youtube.com/watch?v=abc";
      GetTranscript "abc" ["en"] (Some "/srv/cookies.txt");
      ExtractInfo {| cookiefile := Some "/srv/cookies.txt";
                     cookiesfrombrowser := None |}
                  "https://www.youtube.com/watch?v=abc";
      HttpGet "https://c.example/en.vtt" 30 ]
  /\ "https://www.youtube.com/watch?v=abc" = watch_url "abc".
Proof.
  split; [vm_compute; reflexivity|].
  exact (proj1 (transcript_extractor_options cookie_world "abc" "en"
                  {| cookiefile := Some "/srv/cookies.txt";
                     cookiesfrombrowser := None |}
                  "https://www.youtube.com/watch?v=abc"
                  (or_introl eq_refl))).
Defined.

(** X12. When the primary attempt fails, step 1 kept the metadata and a
    caption track is chosen and downloaded, the endpoint returns
    success=true with the cleaned track text and the kept description
    and title, after exactly three calls. *)
Theorem transcript_fallback_success (w : world) (videoId lang : string)
    (exc : exn) (i : info) (u : string) (resp : response) :
  primary_exception w videoId lang = Some exc ->
  captured_info w videoId = Some i ->
  chosen_caption_url lang i = Some u ->
  requests_get w [metadata_call w videoId; primary_call w videoId lang] u
  = inr resp ->
  status_error resp = None ->
  run (transcript w videoId lang)
  = (inr (transcript_ok videoId (_clean_vtt_text (response_text resp))
            (info_description i) (info_title i)),
     [metadata_call w videoId; primary_call w videoId lang; HttpGet u 30]).
Proof.
  intros Hexc Hinfo Hurl Hget Hstatus.
  rewrite (transcript_run_fallback _ _ _ _ Hexc), Hinfo,
    fetch_via_ytdlp_with_info, Hurl, Hget, Hstatus.
  unfold captured_description, captured_title. rewrite Hinfo.
  destruct (info_truthy i && _); reflexivity.
Qed.

Lemma transcript_fallback_success_witness :
  run (transcript (fallback_world (inr sample_captions)) "abc" "en")
  = (inr [ ("success", PyBool true); ("videoId", PyStr "abc");
           ("transcript", PyStr "hello");
           ("description", PyStr "How to make soup");
           ("title", PyStr "Soup") ],
     [ metadata_call (fallback_world (inr sample_captions)) "abc";
       primary_call (fallback_world (inr sample_captions)) "abc" "en";
       HttpGet "https://c.example/en.vtt" 30 ]).
Proof.
  exact (transcript_fallback_success (fallback_world (inr sample_captions))
           "abc" "en" _ sample_info "https://c.example/en.vtt"
           sample_captions eq_refl eq_refl eq_refl eq_refl eq_refl).
Defined.

Lemma chosen_url_info_truthy lang i u :
  chosen_caption_url lang i = Some u -> info_truthy i = true.
Proof.
  unfold chosen_caption_url, info_truthy.
  destruct (subtitles i) as [m|], (automatic_captions i) as [a|];
    cbn; intros H; try discriminate; rewrite ?orb_true_r; reflexivity.
Qed.

(** X13. When step 1 kept no metadata and the primary attempt fails, the
    fallback asks the extractor again; when that answers and a caption
    track is chosen and downloaded, the endpoint returns success=true
    with the cleaned text and the description and title of the second
    answer. *)
Theorem transcript_fallback_backfills (w : world) (videoId lang : string)
    (exc : exn) (i : info) (u : string) (resp : response) :
  primary_exception w videoId lang = Some exc ->
  captured_info w videoId = None ->
  extract_info w [metadata_call w videoId; primary_call w videoId lang]
    (make_ydl_opts (getenv w "TRANSCRIPT_COOKIES_PATH")
                   (getenv w "TRANSCRIPT_COOKIES_BROWSER"))
    (watch_url videoId)
  = inr (Some i) ->
  chosen_caption_url lang i = Some u ->
  requests_get w [metadata_call w videoId; primary_call w videoId lang;
                  metadata_call w videoId] u
  = inr resp ->
  status_error resp = None ->
  run (transcript w videoId lang)
  = (inr (transcript_ok videoId (_clean_vtt_text (response_text resp))
            (info_description i) (info_title i)),
     [metadata_call w videoId; primary_call w videoId lang;
      metadata_call w videoId; HttpGet u 30]).
Proof.
  intros Hexc Hinfo Hagain Hurl Hget Hstatus.
  rewrite (transcript_run_fallback _ _ _ _ Hexc), Hinfo,
    fetch_via_ytdlp_without_info, Hagain, fetch_via_ytdlp_with_info, Hurl.
  cbn [app]. fold (metadata_call w videoId). rewrite Hget, Hstatus.
  unfold captured_description, captured_title. rewrite Hinfo.
  now rewrite (chosen_url_info_truthy _ _ _ Hurl).
Qed.

Lemma transcript_fallback_backfills_witness :
  run (transcript cookie_world "abc" "en")
  = (inr [ ("success", PyBool true); ("videoId", PyStr "abc");
           ("transcript", PyStr "hello");
           ("description", PyStr "How to make soup");
           ("title", PyStr "Soup") ],
     [ metadata_call cookie_world "abc"; primary_call cookie_world "abc" "en";
       metadata_call cookie_world "abc";
       HttpGet "https://c.example/en.vtt" 30 ]).
Proof.
  exact (transcript_fallback_backfills cookie_world "abc" "en" _ sample_info
           "https://c.example/en.vtt" sample_captions
           eq_refl eq_refl eq_refl eq_refl eq_refl eq_refl).
Defined.





(** X16. A result of the transcript endpoint with success=true carries a
    transcript string and no error entry; every result names the
    requested video. *)
Theorem transcript_success_shape (w : world) (videoId lang : string)
    (r : pydict) (tr : list event) :
  run (transcript w videoId lang) = (inr r, tr) ->
  dict_lookup "videoId" r = Some (PyStr videoId)
  /\ (dict_lookup "success" r = Some (PyBool true) ->
      (exists text, dict_lookup "transcript" r = Some (PyStr text))
      /\ dict_lookup "error" r = None
      /\ keys r = ["success"; "videoId"; "transcript"; "description"; "title"]).
Proof.
  unfold run. intros Hrun.
  destruct (transcript_result_shape w videoId lang [])
    as (tr' & d & t & [(text & H)|(exc & fexc & H)]);
    rewrite H in Hrun; injection Hrun as <- <-.
  - split; [reflexivity|]. intros _. split; [eauto|]. split; reflexivity.
  - split; [reflexivity|]. discriminate.
Qed.

Lemma transcript_success_shape_witness :
  dict_lookup "videoId"
    (transcript_ok "abc" "Boil the water  Add salt"
                   (Some "How to make soup") (Some "Soup"))
  = Some (PyStr "abc").
Proof.
  exact (proj1 (transcript_success_shape primary_world "abc" "en" _
                  [metadata_call primary_world "abc";
                   primary_call primary_world "abc" "en"] eq_refl)).
Defined.



(** X18. A URL [pick_caption_url] returns is not empty and is the URL of
    a track listed in the store under the requested language. *)
Theorem pick_caption_url_from_store (lang : string)
    (store : gmap string (list track)) (u : string) :
  pick_caption_url lang store = Some u ->
  u <> ""
  /\ exists entries entry,
       store !! lang = Some entries
       /\ In entry entries
       /\ track_url entry = Some u.
Proof.
  rewrite pick_caption_url_preferred. unfold tracks_for.
  destruct (preferred_track (default [] (store !! lang))) as [e|] eqn:E;
    [|discriminate].
  intros Hu. pose proof (preferred_track_has_url _ _ E) as Htruthy.
  rewrite Hu in Htruthy. split.
  { intros ->. discriminate. }
  destruct (store !! lang) as [entries|]; [|discriminate E].
  exists entries, e. split; [reflexivity|]. split; [|exact Hu].
  cbn in E. unfold preferred_track in E.
  destruct (List.find (fun e => track_is_vtt e && track_has_url e) entries)
    as [e'|] eqn:E'.
  - injection E as <-. now apply find_some in E'.
  - now apply find_some in E.
Qed.

Lemma pick_caption_url_from_store_witness :
  pick_caption_url "en"
    {[ "en" := [ Track (Some "vtt") (Some "");
                 Track (Some "json3") (Some "https://c.example/en.json3") ];
       "fr" := [ Track (Some "vtt") (Some "https://c.example/fr.vtt") ] ]}
  = Some "https://c.example/en.json3"
  /\ "https://c.example/en.json3" <> "".
Proof.
  assert (H : pick_caption_url "en"
                {[ "en" := [ Track (Some "vtt") (Some "");
                             Track (Some "json3")
                                   (Some "https://c.example/en.json3") ];
                   "fr" := [ Track (Some "vtt")
                                   (Some "https://c.example/fr.vtt") ] ]}
              = Some "https://c.example/en.json3").
  { vm_compute. reflexivity. }
  split; [exact H|].
  exact (proj1 (pick_caption_url_from_store _ _ _ H)).
Defined.

(** X19. The manual store has priority over the subtitle format: when it
    lists any track with a URL for the language, the URL the fallback
    settles on is that of a manual track, whatever the automatic store
    offers. *)
Theorem manual_tracks_shadow_automatic (lang : string) (i : info)
    (entry : track) :
  In entry (tracks_for lang (subtitles i)) ->
  track_has_url entry = true ->
  exists manual,
    In manual (tracks_for lang (subtitles i))
    /\ caption_url_of lang i = track_url manual
    /\ track_has_url manual = true.
Proof.
  intros Hin Hurl. rewrite caption_url_chosen. unfold chosen_caption_url.
  destruct (preferred_track (tracks_for lang (subtitles i))) as [e|] eqn:E.
  - exists e. pose proof (preferred_track_has_url _ _ E) as Htruthy.
    split; [|split; [reflexivity|exact Htruthy]].
    unfold preferred_track in E.
    destruct (List.find (fun e => track_is_vtt e && track_has_url e) _)
      as [e'|] eqn:E'.
    + injection E as <-. now apply find_some in E'.
    + now apply find_some in E.
  - unfold preferred_track in E.
    destruct (List.find (fun e => track_is_vtt e && track_has_url e) _);
      [discriminate|].
    pose proof (find_none _ _ E _ Hin) as Hnone. congruence.
Qed.

Lemma manual_tracks_shadow_automatic_witness :
  caption_url_of "en" srv3_info = Some "https://c.example/m.srv3".
Proof.
  assert (Hin : In (Track (Some "srv3") (Some "https://c.example/m.srv3"))
                   (tracks_for "en" (subtitles srv3_info))).
  { vm_compute. left. reflexivity. }
  destruct (manual_tracks_shadow_automatic "en" srv3_info _ Hin eq_refl)
    as (manual & Hmanual & Hurl & _).
  rewrite Hurl. vm_compute in Hmanual. destruct Hmanual as [<-|[]].
  reflexivity.
Defined.

End TranscriptMore.

(** ** The recipe-scraping endpoint *)

Section ScrapeMore.

Lemma scan_ld_json_skip pre rest tr :
  forallb skippable_block pre = true ->
  scan_ld_json (pre ++ rest) None tr = scan_ld_json rest None tr.
Proof.
  induction pre as [|[e|data] pre IH]; [reflexivity| |]; cbn; intros H;
    apply andb_prop in H as [Hb Hpre].
  - rewrite Hb. exact (IH Hpre).
  - destruct (_find_recipe_in_jsonld data); [discriminate|]. exact (IH Hpre).
Qed.

Lemma image_from_recipe_trace og recipe tr :
  snd (image_from_recipe og recipe tr) = tr.
Proof.
  unfold image_from_recipe, py_get, mbind, M_bind, bind, ret, raise.
  repeat case_match; simplify_eq; try reflexivity;
    cbn in *; simplify_eq; reflexivity.
Qed.

(** The shapes of a response: the two-entry failure, or the five entries
    of a success, whose page text is none or the truncated body text. *)
Lemma scrape_response_shape (w : world) (url : string) :
  exists d,
    run (scrape_recipe w url) = (inr d, [HttpGet url 15])
    /\ ((exists message, d = scrape_failed message)
        \/ exists resp recipe_data text title image,
             requests_get w [] url = inr resp
             /\ d = [ ("success", PyBool true);
                      ("recipe_data", recipe_data);
                      ("page_text", text);
                      ("title", title);
                      ("image_url", image) ]
             /\ (text = PyNone
                 \/ text = PyStr (truncate_body
                                    (page_text (BeautifulSoup w
                                                  (response_text resp)))))).
Proof.
  unfold run, scrape_recipe, try_except, scrape_recipe_try, mbind, M_bind,
    bind, call, ret, raise. cbn [app].
  destruct (requests_get w [] url) as [e|resp].
  { eexists. split; [reflexivity|]. left. apply scrape_except_failed. }
  destruct (status_error resp) as [e|].
  { eexists. split; [reflexivity|]. left. apply scrape_except_failed. }
  pose proof (scan_ld_json_trace
                (ld_json (BeautifulSoup w (response_text resp))) None
                [HttpGet url 15]) as Hscan.
  destruct (scan_ld_json _ None _) as [[e|[node|]] tr1]; cbn in Hscan;
    subst tr1.
  - eexists. split; [reflexivity|]. left. apply scrape_except_failed.
  - destruct (truthy node).
    + pose proof (image_from_recipe_trace
                    (og_image_of (BeautifulSoup w (response_text resp)))
                    node [HttpGet url 15]) as Himg.
      destruct (image_from_recipe _ node _) as [[e|image] tr2]; cbn in Himg;
        subst tr2.
      { eexists. split; [reflexivity|]. left. apply scrape_except_failed. }
      unfold py_get. destruct node;
        try (eexists; split; [reflexivity|]; left;
             apply scrape_except_failed).
      eexists. split; [reflexivity|]. right. do 5 eexists.
      split; [reflexivity|]. split; [reflexivity|].
      destruct (negb _); auto.
    + eexists. split; [reflexivity|]. right. do 5 eexists.
      split; [reflexivity|]. split; [reflexivity|]. auto.
  - eexists. split; [reflexivity|]. right. do 5 eexists.
    split; [reflexivity|]. split; [reflexivity|]. auto.
Qed.

(** X20. One request fetches the given URL once, with the 15-second
    timeout, and makes no other outside call, whatever happens
    afterwards; the handler always returns a dictionary. *)
Theorem scrape_single_fetch (w : world) (url : string) :
  exists d, run (scrape_recipe w url) = (inr d, [HttpGet url 15]).
Proof.
  destruct (scrape_response_shape w url) as (d & H & _). eauto.
Qed.

(** X21. When the fetch succeeds and every JSON-LD block either fails to
    parse with a JSON or type error or holds no recipe, the endpoint
    returns success=true with recipe_data none, the truncated page text,
    the page title and the og:image kept. *)
Theorem scrape_without_recipe (w : world) (url : string) (resp : response) :
  requests_get w [] url = inr resp ->
  status_error resp = None ->
  forallb skippable_block (ld_json (BeautifulSoup w (response_text resp)))
  = true ->
  run (scrape_recipe w url)
  = (inr [ ("success", PyBool true);
           ("recipe_data", PyNone);
           ("page_text",
             PyStr (truncate_body
                      (page_text (BeautifulSoup w (response_text resp)))));
           ("title", page_title_of (BeautifulSoup w (response_text resp)));
           ("image_url", og_image_of (BeautifulSoup w (response_text resp))) ],
     [HttpGet url 15]).
Proof.
  intros Hget Hstatus Hskip.
  unfold run, scrape_recipe, try_except, scrape_recipe_try, mbind, M_bind,
    bind, call, ret, raise. cbn [app]. rewrite Hget, Hstatus.
  pose proof (scan_ld_json_skip _ [] [HttpGet url 15] Hskip) as Hscan.
  rewrite app_nil_r in Hscan. rewrite Hscan. reflexivity.
Qed.

Lemma scrape_without_recipe_witness :
  run (scrape_recipe (page_world (inr ok_response) plain_page)
                     "https://example.com/")
  = (inr [ ("success", PyBool true);
           ("recipe_data", PyNone);
           ("page_text", PyStr sample_body);
           ("title", PyStr "Soup - Example");
           ("image_url", PyStr "https://img/x.jpg") ],
     [HttpGet "https://example.com/" 15]).
Proof.
  exact (scrape_without_recipe (page_world (inr ok_response) plain_page)
           "https://example.com/" ok_response eq_refl eq_refl eq_refl).
Defined.

Lemma substring_prefix n s :
  exists rest,
    s = substring 0 n s +:+ rest
    /\ String.length (substring 0 n s) = Nat.min n (String.length s).
Proof.
  revert s. induction n as [|n IH]; intros s.
  - exists s. destruct s; split; reflexivity.
  - destruct s as [|c s]; [exists ""; split; reflexivity|].
    destruct (IH s) as (rest & Hs & Hlen). exists rest.
    split.
    + change (String c s = String c (substring 0 n s +:+ rest)).
      f_equal. exact Hs.
    + change (S (String.length (substring 0 n s))
              = S (Nat.min n (String.length s))).
      f_equal. exact Hlen.
Qed.

Lemma truncate_body_prefix body :
  exists rest,
    body = truncate_body body +:+ rest
    /\ Z.of_nat (String.length (truncate_body body))
       = Z.min (Z.of_nat (String.length body)) 8000.
Proof.
  unfold truncate_body.
  assert (Hlimit : Z.of_nat body_limit = 8000%Z) by reflexivity.
  destruct (Nat.ltb_spec body_limit (String.length body)) as [Hlt|Hle].
  - destruct (substring_prefix body_limit body) as (rest & Hs & Hlen).
    exists rest. split; [exact Hs|]. rewrite Hlen. lia.
  - exists "". split; [|lia].
    clear. induction body as [|c body IH]; [reflexivity|].
    change (String c body = String c (body +:+ "")). f_equal. exact IH.
Qed.

(** X22. The page text of a response, when it is a string, is the
    beginning of the page's body text, cut after 8000 characters: it never
    holds more, and holds the whole text when that is no longer. *)
Theorem scrape_page_text_bounded (w : world) (url : string)
    (resp : response) (d : pydict) (tr : list event) (text : string) :
  requests_get w [] url = inr resp ->
  run (scrape_recipe w url) = (inr d, tr) ->
  dict_lookup "page_text" d = Some (PyStr text) ->
  (exists rest,
     page_text (BeautifulSoup w (response_text resp)) = text +:+ rest)
  /\ Z.of_nat (String.length text)
     = Z.min (Z.of_nat
                (String.length
                   (page_text (BeautifulSoup w (response_text resp)))))
             8000.
Proof.
  intros Hget Hrun Htext.
  destruct (scrape_response_shape w url)
    as (d' & H & [[m ->]|(resp' & rd & pt & t & img & Hget' & -> & Hpt)]);
    rewrite H in Hrun; injection Hrun as <- <-.
  - discriminate Htext.
  - rewrite Hget in Hget'. injection Hget' as <-.
    cbn in Htext. injection Htext as ->.
    destruct Hpt as [Hpt|Hpt]; [discriminate|]. injection Hpt as ->.
    destruct (truncate_body_prefix
                (page_text (BeautifulSoup w (response_text resp))))
      as (rest & Hs & Hlen).
    split; [exists rest; exact Hs|exact Hlen].
Qed.

Lemma scrape_page_text_bounded_witness :
  (exists rest, sample_body = sample_body +:+ rest)
  /\ Z.of_nat (String.length sample_body)
     = Z.min (Z.of_nat (String.length sample_body)) 8000.
Proof.
  exact (scrape_page_text_bounded partial_recipe_world
           "https://example.com/recipe" ok_response _
           [HttpGet "https://example.com/recipe" 15] sample_body
           eq_refl eq_refl eq_refl).
Defined.

(** X23. The scan stops at the first block in which the finder finds a
    recipe: blocks before it that fail to parse or hold no recipe are
    passed over, and the blocks after it are not looked at, so that
    nothing they hold or raise reaches the response. *)
Theorem scrape_first_recipe_block (w : world) (url : string)
    (resp : response) (pre rest : list (exn + pyval)) (data node : pyval) :
  ld_json (BeautifulSoup w (response_text resp)) = pre ++ inr data :: rest ->
  forallb skippable_block pre = true ->
  _find_recipe_in_jsonld data = Some node ->
  found_recipe w url resp = Some node
  /\ scan_ld_json (pre ++ inr data :: rest) None [HttpGet url 15]
     = scan_ld_json (pre ++ [inr data]) None [HttpGet url 15].
Proof.
  intros Hld Hpre Hfind. unfold found_recipe. rewrite Hld.
  rewrite !(scan_ld_json_skip _ _ _ Hpre). cbn. rewrite Hfind. cbn.
  rewrite (recipe_node_truthy _ (find_some_recipe _ _ Hfind)).
  split; reflexivity.
Qed.

Lemma scrape_first_recipe_block_witness :
  found_recipe
    (page_world (inr ok_response)
       (deep_page (inr (PyDict [("@type", PyStr "Recipe")]))))
    "https://example.com/" ok_response
  = Some (PyDict [("@type", PyStr "Recipe")]).
Proof.
  exact (proj1 (scrape_first_recipe_block
                  (page_world (inr ok_response)
                     (deep_page (inr (PyDict [("@type", PyStr "Recipe")]))))
                  "https://example.com/" ok_response
                  [inr (PyList [PyDict [("@type", PyStr "WebSite")]])]
                  [inl (Exn OtherException "maximum recursion depth exceeded")]
                  (PyDict [("@type", PyStr "Recipe")]) _
                  eq_refl eq_refl eq_refl)).
Defined.

(** X24. A block whose parsing raises anything but a JSON or type error,
    met before any recipe, ends the request: the response is the
    two-entry failure "Scraping failed: " with the message, and neither
    the page text nor the title is returned. *)
Theorem scrape_block_exception_aborts (w : world) (url : string)
    (resp : response) (pre rest : list (exn + pyval)) (e : exn) :
  requests_get w [] url = inr resp ->
  status_error resp = None ->
  ld_json (BeautifulSoup w (response_text resp)) = pre ++ inl e :: rest ->
  forallb skippable_block pre = true ->
  is_json_or_type_error e = false ->
  is_request_exception e = false ->
  run (scrape_recipe w url)
  = (inr [ ("success", PyBool false);
           ("error", PyStr ("Scraping failed: " +:+ exn_msg e)) ],
     [HttpGet url 15]).
Proof.
  intros Hget Hstatus Hld Hpre Hjson Hreq.
  unfold run, scrape_recipe, try_except, scrape_recipe_try, mbind, M_bind,
    bind, call, ret, raise. cbn [app]. rewrite Hget, Hstatus, Hld.
  rewrite (scan_ld_json_skip _ _ _ Hpre). cbn [scan_ld_json]. rewrite Hjson.
  assert (Htimeout : is_timeout e = false).
  { unfold is_timeout, is_request_exception in *. now destruct (exn_cls e). }
  unfold raise, scrape_except. now rewrite Htimeout, Hreq.
Qed.

Lemma scrape_block_exception_aborts_witness :
  run (scrape_recipe
         (page_world (inr ok_response)
            (deep_page (inl (Exn JSONDecodeError "Expecting value"))))
         "https://example.com/")
  = (inr [ ("success", PyBool false);
           ("error",
             PyStr "Scraping failed: maximum recursion depth exceeded") ],
     [HttpGet "https://example.com/" 15]).
Proof.
  exact (scrape_block_exception_aborts
           (page_world (inr ok_response)
              (deep_page (inl (Exn JSONDecodeError "Expecting value"))))
           "https://example.com/" ok_response
           [ inr (PyList [PyDict [("@type", PyStr "WebSite")]]);
             inl (Exn JSONDecodeError "Expecting value") ]
           [] (Exn OtherException "maximum recursion depth exceeded")
           eq_refl eq_refl eq_refl eq_refl eq_refl eq_refl).
Defined.

(** X25. In a success response for a page with a recipe node the title
    is the node's name when that is truthy, and else the page title: the
    stripped text of the title element, or none without one. *)
Theorem scrape_title_preference (w : world) (url : string)
    (resp : response) (fields d : pydict) (tr : list event) :
  requests_get w [] url = inr resp ->
  status_error resp = None ->
  found_recipe w url resp = Some (PyDict fields) ->
  run (scrape_recipe w url) = (inr d, tr) ->
  dict_lookup "success" d = Some (PyBool true) ->
  (forall name, dict_lookup "name" fields = Some name -> truthy name = true ->
                dict_lookup "title" d = Some name)
  /\ (forall name, dict_lookup "name" fields = Some name ->
                   truthy name = false ->
                   dict_lookup "title" d
                   = Some (page_title_of (BeautifulSoup w (response_text resp))))
  /\ (dict_lookup "name" fields = None ->
      dict_lookup "title" d
      = Some (page_title_of (BeautifulSoup w (response_text resp)))).
Proof.
  intros Hget Hstatus Hfound Hrun Hok.
  destruct (scrape_recipe_found w url resp fields Hget Hstatus Hfound)
    as (out & _ & H).
  rewrite H in Hrun. injection Hrun as <- <-.
  destruct out as [e|image].
  { destruct (scrape_except_failed e) as [m Hm]. rewrite Hm in Hok.
    discriminate. }
  cbn -[truncate_body]. unfold dict_get, py_or. repeat split.
  - intros name -> Hname. cbn. now rewrite Hname.
  - intros name -> Hname. cbn. now rewrite Hname.
  - intros ->. reflexivity.
Qed.

Lemma scrape_title_preference_witness :
  dict_lookup "title"
    [ ("success", PyBool true);
      ("recipe_data", PyDict [("@type", PyStr "Recipe"); ("name", PyStr "Soup")]);
      ("page_text", PyStr sample_body);
      ("title", PyStr "Soup");
      ("image_url", PyNone) ]
  = Some (PyStr "Soup").
Proof.
  exact (proj1 (scrape_title_preference partial_recipe_world
                  "https://example.com/recipe" ok_response _ _
                  [HttpGet "https://example.com/recipe" 15]
                  eq_refl eq_refl eq_refl eq_refl eq_refl)
               (PyStr "Soup") eq_refl eq_refl).
Defined.

(** X26. Without an og:image kept, a recipe whose image field is a
    sequence beginning with something that is neither a string nor an
    object makes the whole request fail: the response is the two-entry
    failure "Scraping failed: '<type>' object has no attribute 'get'",
    although the recipe was found. *)
Theorem scrape_bad_image_list_aborts (w : world) (url : string)
    (resp : response) (fields : pydict) (first : pyval)
    (others : list pyval) :
  requests_get w [] url = inr resp ->
  status_error resp = None ->
  found_recipe w url resp = Some (PyDict fields) ->
  (forall content,
      og_tag (BeautifulSoup w (response_text resp)) = Some (Some content) ->
      content = "") ->
  dict_lookup "image" fields = Some (PyList (first :: others)) ->
  is_str_or_dict first = false ->
  run (scrape_recipe w url)
  = (inr [ ("success", PyBool false);
           ("error",
             PyStr ("Scraping failed: '" +:+ type_name first
                    +:+ "' object has no attribute 'get'")) ],
     [HttpGet url 15]).
Proof.
  intros Hget Hstatus Hfound Hog Himage Hfirst.
  destruct (scrape_recipe_found w url resp fields Hget Hstatus Hfound)
    as (out & Hout & H).
  rewrite H. clear H.
  assert (Eog : og_image_of (BeautifulSoup w (response_text resp)) = PyNone).
  { destruct (og_image_of_cases (BeautifulSoup w (response_text resp)))
      as [E|(c & Hc & Hne & _)]; [exact E|].
    now apply Hog in Hc. }
  rewrite Eog in Hout.
  unfold image_from_recipe, py_get, mbind, M_bind, bind, ret, raise, dict_get
    in Hout.
  rewrite Himage in Hout. cbn in Hout.
  destruct first; try discriminate Hfirst; injection Hout as <-; reflexivity.
Qed.

Lemma scrape_bad_image_list_aborts_witness :
  run (scrape_recipe bad_image_world "https://example.com/recipe")
  = (inr [ ("success", PyBool false);
           ("error",
             PyStr "Scraping failed: 'int' object has no attribute 'get'") ],
     [HttpGet "https://example.com/recipe" 15]).
Proof.
  refine (scrape_bad_image_list_aborts bad_image_world
            "https://example.com/recipe" ok_response
            [("@type", PyStr "Recipe"); ("name", PyStr "Soup");
             ("image", PyList [PyInt 1])]
            (PyInt 1) [] eq_refl eq_refl eq_refl _ eq_refl eq_refl).
  intros content H. discriminate H.
Defined.

(** X27. A response of the recipe-scrape endpoint with success=true
    holds exactly the keys success, recipe_data, page_text, title and
    image_url, in this order, and no error entry. *)
Theorem scrape_success_keys (w : world) (url : string) (d : pydict)
    (tr : list event) :
  run (scrape_recipe w url) = (inr d, tr) ->
  dict_lookup "success" d = Some (PyBool true) ->
  keys d = ["success"; "recipe_data"; "page_text"; "title"; "image_url"]
  /\ dict_lookup "error" d = None.
Proof.
  intros Hrun Hok.
  destruct (scrape_response_shape w url)
    as (d' & H & [[m ->]|(resp' & rd & pt & t & img & _ & -> & _)]);
    rewrite H in Hrun; injection Hrun as <- <-.
  - discriminate Hok.
  - split; reflexivity.
Qed.

Lemma scrape_success_keys_witness :
  keys [ ("success", PyBool true);
         ("recipe_data", PyDict [("@type", PyStr "Recipe"); ("name", PyStr "Soup")]);
         ("page_text", PyStr sample_body);
         ("title", PyStr "Soup");
         ("image_url", PyNone) ]
  = ["success"; "recipe_data"; "page_text"; "title"; "image_url"].
Proof.
  exact (proj1 (scrape_success_keys partial_recipe_world
                  "https://example.com/recipe" _
                  [HttpGet "https://example.com/recipe" 15]
                  eq_refl eq_refl)).
Defined.

End ScrapeMore.
